(** * video-orchestrator: schedule status, reminders and the selection wizard

    A shallow embedding of the parts of the bot that decide its behaviour:
    - [schedule_manager.py]: [ScheduleManager.get_day_status],
      [get_incomplete_items_for_date], and [ReminderManager]'s two checks
      and [log_reminder];
    - [channel_manager.py]: [ChannelManager.get_channel], [list_channels]
      and [DailyUploadManager]'s writers;
    - [inline_selection_handler.py]: the wizard ([start_selection],
      [handle_callback], [_process_selection]) and the bulk variant;
    - [gdrive_folder_manager.py]: [archive_old_folders].

    The remote store is a record of tables (lists of rows, in the order the
    store returns them).  Every [.execute()] of the source is one remote
    request: it is logged, it consumes one tick of the world, and it raises
    when the world's fault oracle says so at that tick.  Python exceptions
    are the [Raise] outcome of a state-and-error monad; [try_except] is the
    source's [try: ... except Exception: ...]. *)

From Stdlib Require Import ZArith QArith String List Lia Bool.
From stdpp Require Import base option list gmap strings pretty.

Local Open Scope string_scope.
Local Open Scope Z_scope.

(** ** Dates and timestamps *)

(** A calendar date is its proleptic Gregorian ordinal ([date.toordinal()]);
    [isoformat()] maps ordinals to [YYYY-MM-DD] texts in the same order. *)
Definition date : Type := Z.

Definition MINORDINAL : Z := 1.        (* date.min = 0001-01-01 *)
Definition MAXORDINAL : Z := 3652059.  (* date.max = 9999-12-31 *)
Definition MAX_DELTA_DAYS : Z := 999999999.


(** [d + timedelta(days=k)]: [OverflowError] (here [None]) when the
    [timedelta] cannot be built or the result leaves [date.min..date.max]. *)
Definition date_plus_days (d : date) (k : Z) : option date :=
  if (Z.abs k <=? MAX_DELTA_DAYS) &&
     (MINORDINAL <=? d + k) && (d + k <=? MAXORDINAL)
  then Some (d + k) else None.

(** A timestamp text as [datetime.fromisoformat] reads it: [Naive us] has no
    UTC offset (what [datetime.utcnow().isoformat()] writes), [Aware us]
    carries one (a trailing [Z] is rewritten to [+00:00] by the source before
    parsing).  [us] counts microseconds of UTC. *)
Inductive timestamp : Type :=
| Naive (us : Z)
| Aware (us : Z).

(** [(now - last_dt)] for the naive [now = datetime.utcnow()]: Python refuses
    to subtract an offset-aware datetime from a naive one ([TypeError]). *)
Definition elapsed_since (now : Z) (last_dt : timestamp) : option Z :=
  match last_dt with
  | Naive us => Some (now - us)
  | Aware _ => None
  end.

Definition MINUTE_US : Z := 60 * 1000000.
Definition HOUR_US : Z := 3600 * 1000000.

(** ** Tables of the remote store *)

(** [channels]: the columns the modelled code reads. *)
Record channel : Type := Channel {
  ch_id : Z;
  ch_channel_name : string;
  ch_is_active : bool
}.

(** [daily_uploads]: one row per (channel, date, video number). *)
Record daily_upload : Type := DailyUpload {
  channel_id : Z;
  upload_date : date;
  video_number : Z;
  script_status : string;
  thumbnail_status : string;
  video_status : string;
  audio_status : string;
  script_text : option string;
  script_received_at : option timestamp;
  thumbnail_gdrive_id : option string;
  thumbnail_gdrive_url : option string;
  video_gdrive_id : option string;
  video_gdrive_url : option string;
  error_message : option string;
  processing_completed_at : option timestamp;
  updated_at : option timestamp
}.

(** [upload_schedules]: one row per date; [all_complete] is a stored column
    (only its truthiness is read), the last two columns are the last-sent
    marker. *)
Record upload_schedule : Type := UploadSchedule {
  sch_upload_date : date;
  all_complete : bool;
  last_reminder_sent_at : option timestamp;
  reminder_type : option string
}.

(** [gdrive_folders]. *)
Record gdrive_folder : Type := GDriveFolder {
  folder_id : string;
  folder_date : date;
  is_active : bool;
  archived_at : option timestamp
}.

(** [reminder_logs]. *)
Record reminder_log : Type := ReminderLog {
  log_reminder_type : string;
  log_upload_date : date;
  log_message_text : string;
  log_incomplete_count : Z;
  log_channels_mentioned : list string
}.

Record store : Type := Store {
  channels : list channel;
  daily_uploads : list daily_upload;
  upload_schedules : list upload_schedule;
  gdrive_folders : list gdrive_folder;
  reminder_logs : list reminder_log
}.

Definition with_daily_uploads (f : list daily_upload -> list daily_upload)
  (db : store) : store :=
  Store (channels db) (f (daily_uploads db)) (upload_schedules db)
        (gdrive_folders db) (reminder_logs db).

Definition with_upload_schedules
  (f : list upload_schedule -> list upload_schedule) (db : store) : store :=
  Store (channels db) (daily_uploads db) (f (upload_schedules db))
        (gdrive_folders db) (reminder_logs db).


Definition with_reminder_logs (f : list reminder_log -> list reminder_log)
  (db : store) : store :=
  Store (channels db) (daily_uploads db) (upload_schedules db)
        (gdrive_folders db) (f (reminder_logs db)).

(** ** The wizard's per-user state *)

(** [content_type] together with [content_data], in the two shapes
    [handle_message] builds, and any other [content_type]. *)
Inductive content : Type :=
| Script (script_text : string)
| Thumbnail (file_id : string) (url : option string)
| OtherContent (content_type : string).

Record selection : Type := Selection {
  sel_content : content;
  step : string;
  selected_date : option date;
  selected_channel : option string;
  selected_video : option Z;
  message_id : option Z
}.

Record bulk_selection : Type := BulkSelection {
  bulk_items : list content;
  bulk_step : string;
  bulk_selected_date : option date;
  bulk_selected_channel : option string
}.

(** Callback tokens, by the prefix [handle_callback] dispatches on:
    [cancel], [back_to_date], [back_to_channel], [date:<ISO date>],
    [channel:<name>], [video:<int>], and any other text. *)
Inductive callback : Type :=
| Cancel
| BackToDate
| BackToChannel
| DatePick (d : date)
| ChannelPick (name : string)
| VideoPick (n : Z)
| Unrecognised (data : string).

(** Texts the wizard sends or edits into its message (keyboards are not
    modelled). *)
Inductive reply : Type :=
| SelectionExpired
| SelectionCancelled
| SelectUploadDateFor (c : content)
| BulkSelectDate (n_items : nat)
| SelectUploadDate
| SelectChannelFor (d : option date)
| SelectVideoNumberFor (name : string)
| SavedFor (d : date) (name : option string) (n : Z)
| ErrorSaving
| BulkSelectChannel
| BulkSaved (success_count : Z) (n_items : nat) (d : date) (name : string).

(** ** Remote requests and the world *)

Inductive request : Type :=
| SelectChannelByName (name : string)
| SelectChannels (active_only : bool)
| UpsertUpload (cid : Z) (d : option date) (n : Z)
| UpdateScript (cid : Z) (d : option date) (n : Z) (text : string)
| UpdateThumbnail (cid : Z) (d : option date) (n : Z)
    (gdrive_id : string) (gdrive_url : option string)
| UpdateVideoStatus (cid : Z) (d : option date) (n : Z) (status : string)
| SelectSchedule (d : date)
| RpcCreateSkeleton (d : date)
| SelectUploads (d : date)
| InsertReminderLog (entry : reminder_log)
| UpdateScheduleReminder (d : date) (rtype : string)
| ArchiveFolders (cutoff : date).

Record world : Type := World {
  w_db : store;
  w_now : Z;                              (* datetime.utcnow(), microseconds *)
  w_today : date;                         (* date.today() *)
  w_tick : nat;                           (* requests issued so far *)
  w_fault : nat -> bool;                  (* which requests fail *)
  w_requests : list request;              (* requests issued, oldest first *)
  w_selections : gmap Z selection;        (* user_data['selections'] *)
  w_bulk_selections : gmap Z bulk_selection;
  w_commits : list selection;             (* calls of _process_selection *)
  w_replies : list reply                  (* messages edited, oldest first *)
}.

Definition set_db (db : store) (w : world) : world :=
  World db (w_now w) (w_today w) (w_tick w) (w_fault w) (w_requests w)
        (w_selections w) (w_bulk_selections w) (w_commits w) (w_replies w).

Definition set_now (t : Z) (w : world) : world :=
  World (w_db w) t (w_today w) (w_tick w) (w_fault w) (w_requests w)
        (w_selections w) (w_bulk_selections w) (w_commits w) (w_replies w).

Definition set_selections (m : gmap Z selection) (w : world) : world :=
  World (w_db w) (w_now w) (w_today w) (w_tick w) (w_fault w) (w_requests w)
        m (w_bulk_selections w) (w_commits w) (w_replies w).

Definition set_bulk_selections (m : gmap Z bulk_selection) (w : world)
  : world :=
  World (w_db w) (w_now w) (w_today w) (w_tick w) (w_fault w) (w_requests w)
        (w_selections w) m (w_commits w) (w_replies w).

(** ** The monad: state passing with exceptions *)

Inductive outcome (A : Type) : Type :=
| Ok (a : A)
| Raise.
Arguments Ok {A} a.
Arguments Raise {A}.

Definition M (A : Type) : Type := world -> outcome A * world.

Definition ret {A} (a : A) : M A := fun w => (Ok a, w).

Definition bind {A B} (c : M A) (k : A -> M B) : M B :=
  fun w => match c w with
           | (Ok a, w') => k a w'
           | (Raise, w') => (Raise, w')
           end.

Definition raise {A} : M A := fun w => (Raise, w).

(** [try: c except Exception: h]. *)
Definition try_except {A} (c : M A) (h : M A) : M A :=
  fun w => match c w with
           | (Ok a, w') => (Ok a, w')
           | (Raise, w') => h w'
           end.

#[global] Instance M_ret : MRet M := @ret.
#[global] Instance M_bind : MBind M := fun A B k c => bind c k.

(** One [.execute()]: logged, counted, and either failed by the oracle or
    answered by [f] on the store. *)
Definition issue (r : request) (w : world) : world :=
  World (w_db w) (w_now w) (w_today w) (S (w_tick w)) (w_fault w)
        (w_requests w ++ [r]) (w_selections w) (w_bulk_selections w)
        (w_commits w) (w_replies w).

Definition execute {A} (r : request) (f : store -> outcome A * store)
  : M A :=
  fun w =>
    if w_fault w (w_tick w) then (Raise, issue r w)
    else let '(o, db') := f (w_db w) in (o, set_db db' (issue r w)).

Definition utcnow : M Z := fun w => (Ok (w_now w), w).
Definition date_today : M date := fun w => (Ok (w_today w), w).

Definition edit_message_text (r : reply) : M unit :=
  fun w => (Ok tt,
            World (w_db w) (w_now w) (w_today w) (w_tick w) (w_fault w)
                  (w_requests w) (w_selections w) (w_bulk_selections w)
                  (w_commits w) (w_replies w ++ [r])).

(** [update.message.reply_text]: a new message; like the edits it is taken
    to succeed. *)
Definition reply_text (r : reply) : M unit := edit_message_text r.

Definition record_commit (s : selection) : M unit :=
  fun w => (Ok tt,
            World (w_db w) (w_now w) (w_today w) (w_tick w) (w_fault w)
                  (w_requests w) (w_selections w) (w_bulk_selections w)
                  (w_commits w ++ [s]) (w_replies w)).

(** ** Filters and patches of the store *)

(** Rows an [.update(patch)...execute()] touches and returns: every row
    matching the filter is patched in place; the answer holds the patched
    rows. *)
Definition update_where {R : Type} (p : R -> bool) (f : R -> R)
  (rows : list R) : list R * list R :=
  (map (fun r => if p r then f r else r) rows, map f (List.filter p rows)).

(** The column/value dictionary of an update or upsert on [daily_uploads]:
    [None] is a column the dictionary does not mention. *)
Record upload_patch : Type := UploadPatch {
  p_script_status : option string;
  p_thumbnail_status : option string;
  p_video_status : option string;
  p_audio_status : option string;
  p_script_text : option (option string);
  p_script_received_at : option (option timestamp);
  p_thumbnail_gdrive_id : option (option string);
  p_thumbnail_gdrive_url : option (option string);
  p_video_gdrive_id : option (option string);
  p_video_gdrive_url : option (option string);
  p_error_message : option (option string);
  p_processing_completed_at : option (option timestamp);
  p_updated_at : option (option timestamp)
}.

Definition apply_patch (p : upload_patch) (r : daily_upload) : daily_upload :=
  {| channel_id := channel_id r;
     upload_date := upload_date r;
     video_number := video_number r;
     script_status := default (script_status r) (p_script_status p);
     thumbnail_status := default (thumbnail_status r) (p_thumbnail_status p);
     video_status := default (video_status r) (p_video_status p);
     audio_status := default (audio_status r) (p_audio_status p);
     script_text := default (script_text r) (p_script_text p);
     script_received_at :=
       default (script_received_at r) (p_script_received_at p);
     thumbnail_gdrive_id :=
       default (thumbnail_gdrive_id r) (p_thumbnail_gdrive_id p);
     thumbnail_gdrive_url :=
       default (thumbnail_gdrive_url r) (p_thumbnail_gdrive_url p);
     video_gdrive_id := default (video_gdrive_id r) (p_video_gdrive_id p);
     video_gdrive_url := default (video_gdrive_url r) (p_video_gdrive_url p);
     error_message := default (error_message r) (p_error_message p);
     processing_completed_at :=
       default (processing_completed_at r) (p_processing_completed_at p);
     updated_at := default (updated_at r) (p_updated_at p) |}.

(** A row as the store inserts it: the key, and NULL in every column the
    patch leaves out (the status columns are always supplied). *)
Definition blank_upload (cid : Z) (d : date) (n : Z) : daily_upload :=
  {| channel_id := cid; upload_date := d; video_number := n;
     script_status := ""; thumbnail_status := ""; video_status := "";
     audio_status := "";
     script_text := None; script_received_at := None;
     thumbnail_gdrive_id := None; thumbnail_gdrive_url := None;
     video_gdrive_id := None; video_gdrive_url := None;
     error_message := None; processing_completed_at := None;
     updated_at := None |}.

(** [.eq('channel_id', c).eq('upload_date', d).eq('video_number', n)];
    a [None] date matches no row. *)
Definition same_key (cid : Z) (d : option date) (n : Z) (r : daily_upload)
  : bool :=
  match d with
  | Some d' =>
      (channel_id r =? cid) && (upload_date r =? d') && (video_number r =? n)
  | None => false
  end.

(** [.upsert(data, on_conflict='channel_id,upload_date,video_number')]: the
    client's default resolution merges duplicates, so a row already holding
    the key is overwritten in the supplied columns and no row is added; a
    fresh key appends one row.  The key columns take no NULL: a request
    without a date is refused. *)
Definition upsert_upload (cid : Z) (d : option date) (n : Z)
  (p : upload_patch) (db : store) : outcome (list daily_upload) * store :=
  match d with
  | None => (Raise, db)
  | Some d' =>
      if existsb (same_key cid d n) (daily_uploads db)
      then
        let '(rows, hit) :=
          update_where (same_key cid d n) (apply_patch p) (daily_uploads db)
        in (Ok hit, with_daily_uploads (fun _ => rows) db)
      else
        let r := apply_patch p (blank_upload cid d' n) in
        (Ok [r], with_daily_uploads (fun rows => (rows ++ [r])%list) db)
  end.

Definition update_upload (cid : Z) (d : option date) (n : Z)
  (p : upload_patch) (db : store) : outcome (list daily_upload) * store :=
  let '(rows, hit) :=
    update_where (same_key cid d n) (apply_patch p) (daily_uploads db) in
  (Ok hit, with_daily_uploads (fun _ => rows) db).

(** A row of [select('*, channels(channel_name)')]: the upload with the
    channel embedded through [channel_id] ([None] when nothing is
    referenced). *)
Record joined_upload : Type := JoinedUpload {
  j_upload : daily_upload;
  j_channels : option string
}.

Definition embed_channel (db : store) (u : daily_upload) : joined_upload :=
  {| j_upload := u;
     j_channels :=
       ch_channel_name <$>
         List.find (fun c => ch_id c =? channel_id u) (channels db) |}.

Definition select_uploads (d : date) (db : store) : list joined_upload :=
  map (embed_channel db)
      (List.filter (fun u => upload_date u =? d) (daily_uploads db)).

Definition select_schedule (d : date) (db : store) : list upload_schedule :=
  List.filter (fun s => sch_upload_date s =? d) (upload_schedules db).

(** The text an [.eq(column, value)] filter sends for a Python value. *)
Definition filter_text (v : option string) : string := default "None" v.

(** ** ChannelManager *)

Definition get_channel (channel_name : option string) : M (option channel) :=
  try_except
    (rows ← execute (SelectChannelByName (filter_text channel_name))
       (fun db =>
          (Ok (List.filter
                 (fun c => String.eqb (ch_channel_name c)
                                      (filter_text channel_name))
                 (channels db)), db));
     match rows with
     | c :: _ => mret (Some c)
     | [] => mret None
     end)
    (mret None).

(** The rows come ordered by name in the source; only the keyboard shows the
    order. *)
Definition list_channels (active_only : bool) : M (list channel) :=
  try_except
    (execute (SelectChannels active_only)
       (fun db =>
          (Ok (if active_only
               then List.filter ch_is_active (channels db)
               else channels db), db)))
    (mret []).

(** ** DailyUploadManager *)

Definition first_or_raise {A} (rows : list A) : M A :=
  match rows with
  | r :: _ => mret r
  | [] => raise
  end.

Definition create_patch : upload_patch :=
  {| p_script_status := Some "pending";
     p_thumbnail_status := Some "pending";
     p_video_status := Some "pending";
     p_audio_status := Some "pending";
     p_script_text := None; p_script_received_at := None;
     p_thumbnail_gdrive_id := None; p_thumbnail_gdrive_url := None;
     p_video_gdrive_id := None; p_video_gdrive_url := None;
     p_error_message := None; p_processing_completed_at := None;
     p_updated_at := None |}.

Definition create_upload_entry (cid : Z) (d : option date) (n : Z)
  : M daily_upload :=
  rows ← execute (UpsertUpload cid d n) (upsert_upload cid d n create_patch);
  first_or_raise rows.

Definition script_patch (text : string) (now : Z) : upload_patch :=
  {| p_script_status := Some "received";
     p_thumbnail_status := None; p_video_status := None;
     p_audio_status := None;
     p_script_text := Some (Some text);
     p_script_received_at := Some (Some (Naive now));
     p_thumbnail_gdrive_id := None; p_thumbnail_gdrive_url := None;
     p_video_gdrive_id := None; p_video_gdrive_url := None;
     p_error_message := None; p_processing_completed_at := None;
     p_updated_at := Some (Some (Naive now)) |}.

Definition update_script (cid : Z) (d : option date) (n : Z) (text : string)
  : M daily_upload :=
  now ← utcnow;
  rows ← execute (UpdateScript cid d n text)
           (update_upload cid d n (script_patch text now));
  first_or_raise rows.

Definition thumbnail_patch (gdrive_id : string) (gdrive_url : option string)
  (now : Z) : upload_patch :=
  {| p_script_status := None;
     p_thumbnail_status := Some "received";
     p_video_status := None; p_audio_status := None;
     p_script_text := None; p_script_received_at := None;
     p_thumbnail_gdrive_id := Some (Some gdrive_id);
     p_thumbnail_gdrive_url := Some gdrive_url;
     p_video_gdrive_id := None; p_video_gdrive_url := None;
     p_error_message := None; p_processing_completed_at := None;
     p_updated_at := Some (Some (Naive now)) |}.

Definition update_thumbnail (cid : Z) (d : option date) (n : Z)
  (gdrive_id : string) (gdrive_url : option string) : M daily_upload :=
  now ← utcnow;
  rows ← execute (UpdateThumbnail cid d n gdrive_id gdrive_url)
           (update_upload cid d n (thumbnail_patch gdrive_id gdrive_url now));
  first_or_raise rows.

(** [if value:] on an optional text: present and not empty. *)
Definition truthy (v : option string) : option (option string) :=
  match v with
  | Some s => if String.eqb s "" then None else Some (Some s)
  | None => None
  end.

Definition video_status_patch (status : string)
  (gdrive_id gdrive_url error : option string) (now : Z) : upload_patch :=
  {| p_script_status := None; p_thumbnail_status := None;
     p_video_status := Some status;
     p_audio_status := None;
     p_script_text := None; p_script_received_at := None;
     p_thumbnail_gdrive_id := None; p_thumbnail_gdrive_url := None;
     p_video_gdrive_id := truthy gdrive_id;
     p_video_gdrive_url := truthy gdrive_url;
     p_error_message := truthy error;
     p_processing_completed_at :=
       if String.eqb status "completed" then Some (Some (Naive now))
       else None;
     p_updated_at := Some (Some (Naive now)) |}.

Definition update_video_status (cid : Z) (d : option date) (n : Z)
  (status : string) (gdrive_id gdrive_url error : option string)
  : M daily_upload :=
  now ← utcnow;
  rows ← execute (UpdateVideoStatus cid d n status)
           (update_upload cid d n
              (video_status_patch status gdrive_id gdrive_url error now));
  first_or_raise rows.

(** ** GDriveFolderManager *)




(** ** ScheduleManager *)

(** [sum(1 for u in uploads if cond(u))]. *)
Definition count_if {A} (cond : A -> bool) (l : list A) : Z :=
  Z.of_nat (length (List.filter cond l)).

Definition script_ready (u : joined_upload) : bool :=
  String.eqb (script_status (j_upload u)) "received" ||
  String.eqb (script_status (j_upload u)) "processed".

Definition thumbnail_ready (u : joined_upload) : bool :=
  String.eqb (thumbnail_status (j_upload u)) "received".

Definition video_completed (u : joined_upload) : bool :=
  String.eqb (video_status (j_upload u)) "completed".

(** [(videos_completed / total * 100) if total > 0 else 0], as the exact
    rational.  The comparisons below read the value of the Python float; for
    any counts the two agree on which side of 0, 50, 80 and 100 they fall. *)
Definition completion_percentage (videos_completed total : Z) : Q :=
  if 0 <? total
  then (inject_Z videos_completed / inject_Z total * inject_Z 100)%Q
  else inject_Z 0.

Definition status_text_of (completion_pct : Q) : string :=
  if Qeq_bool completion_pct (inject_Z 100) then "READY"
  else if Qle_bool (inject_Z 80) completion_pct then "ALMOST READY"
  else if Qle_bool (inject_Z 50) completion_pct then "IN PROGRESS"
  else if negb (Qle_bool completion_pct (inject_Z 0)) then "STARTED"
  else "NOT STARTED".

Record channel_status : Type := ChannelStatus {
  cs_total : Z;
  cs_completed : Z;
  cs_scripts : Z;
  cs_thumbnails : Z;
  cs_missing : list string
}.

Definition new_channel_status : channel_status :=
  ChannelStatus 0 0 0 0 [].

(** [f"V{video_num} script"]. *)
Definition missing_label (video_num : Z) (field : string) : string :=
  "V" ++ pretty video_num ++ " " ++ field.

(** The entries one upload appends to its channel's [missing] list. *)
Definition missing_of (u : daily_upload) : list string :=
  (if String.eqb (script_status u) "pending"
   then [missing_label (video_number u) "script"] else []) ++
  (if String.eqb (thumbnail_status u) "pending"
   then [missing_label (video_number u) "thumbnail"] else []).

Definition add_upload (u : joined_upload) (cs : channel_status)
  : channel_status :=
  {| cs_total := cs_total cs + 1;
     cs_completed := cs_completed cs + (if video_completed u then 1 else 0);
     cs_scripts := cs_scripts cs + (if script_ready u then 1 else 0);
     cs_thumbnails := cs_thumbnails cs + (if thumbnail_ready u then 1 else 0);
     cs_missing := cs_missing cs ++ missing_of (j_upload u) |}.

(** The loop grouping uploads by channel; [None] is the [TypeError] of
    [upload['channels']['channel_name']] on a missing embedding. *)
Fixpoint group_by_channel (uploads : list joined_upload)
  (channels_status : gmap string channel_status)
  : option (gmap string channel_status) :=
  match uploads with
  | [] => Some channels_status
  | upload :: rest =>
      match j_channels upload with
      | None => None
      | Some ch_name =>
          let cs := default new_channel_status (channels_status !! ch_name) in
          group_by_channel rest
            (<[ch_name := add_upload upload cs]> channels_status)
      end
  end.

(** The dictionary [get_day_status] returns.  [completion_pct] is the value
    the tier is computed from (the source stores it rounded to one decimal
    under ['completion_percentage']). *)
Record day_status : Type := DayStatus {
  ds_date : date;
  status_text : string;
  completion_pct : Q;
  total_videos : Z;
  videos_completed : Z;
  scripts_ready : Z;
  thumbnails_ready : Z;
  ds_all_complete : bool;
  ds_channels : gmap string channel_status;
  ds_uploads : list joined_upload;
  ds_schedule : option upload_schedule
}.

(** Lines 104-172 of [get_day_status]: the statistics of the rows read. *)
Definition day_status_of (target_date : date)
  (schedule : option upload_schedule) (uploads : list joined_upload)
  : option day_status :=
  let total := Z.of_nat (length uploads) in
  let videos_completed := count_if video_completed uploads in
  let completion_pct := completion_percentage videos_completed total in
  channels_status ← group_by_channel uploads ∅;
  Some {| ds_date := target_date;
          status_text := status_text_of completion_pct;
          completion_pct := completion_pct;
          total_videos := total;
          videos_completed := videos_completed;
          scripts_ready := count_if script_ready uploads;
          thumbnails_ready := count_if thumbnail_ready uploads;
          ds_all_complete :=
            match schedule with
            | Some s => all_complete s
            | None => false
            end;
          ds_channels := channels_status;
          ds_uploads := uploads;
          ds_schedule := schedule |}.

Section Bot.

(** The stored procedure [create_daily_uploads_skeleton] lives in the
    database; its effect on the store is a parameter. *)
Variable create_daily_uploads_skeleton : date -> store -> store.

Definition initialize_date (target_date : date) : M bool :=
  try_except
    (execute (RpcCreateSkeleton target_date)
       (fun db => (Ok tt, create_daily_uploads_skeleton target_date db));;
     mret true)
    (mret false).

Definition execute_select_schedule (d : date) : M (list upload_schedule) :=
  execute (SelectSchedule d) (fun db => (Ok (select_schedule d db), db)).

Definition execute_select_uploads (d : date) : M (list joined_upload) :=
  execute (SelectUploads d) (fun db => (Ok (select_uploads d db), db)).

(** [None] is the empty dictionary returned on any exception. *)
Definition get_day_status (target_date : date) : M (option day_status) :=
  try_except
    (schedule_result ← execute_select_schedule target_date;
     schedule_result ←
       match schedule_result with
       | [] => initialize_date target_date;;
               execute_select_schedule target_date
       | _ => mret schedule_result
       end;
     uploads ← execute_select_uploads target_date;
     match day_status_of target_date (head schedule_result) uploads with
     | Some status => mret (Some status)
     | None => raise
     end)
    (mret None).

Record incomplete_item : Type := IncompleteItem {
  ii_channel_name : string;
  ii_video_number : Z;
  ii_missing : list string;
  ii_upload : joined_upload
}.

Definition issues_of (u : daily_upload) : list string :=
  (if String.eqb (script_status u) "pending" then ["script"] else []) ++
  (if String.eqb (thumbnail_status u) "pending" then ["thumbnail"] else []) ++
  (if negb (String.eqb (video_status u) "completed") then ["video"] else []).

Fixpoint collect_incomplete (uploads : list joined_upload)
  : option (list incomplete_item) :=
  match uploads with
  | [] => Some []
  | upload :: rest =>
      match issues_of (j_upload upload) with
      | [] => collect_incomplete rest
      | issues =>
          ch_name ← j_channels upload;
          items ← collect_incomplete rest;
          Some (IncompleteItem ch_name (video_number (j_upload upload))
                               issues upload :: items)
      end
  end.

Definition get_incomplete_items_for_date (target_date : date)
  : M (list incomplete_item) :=
  try_except
    (uploads ← execute_select_uploads target_date;
     match collect_incomplete uploads with
     | Some incomplete => mret incomplete
     | None => raise
     end)
    (mret []).

(** [DailyUploadManager.get_incomplete_items]: the same condition as a
    filter of the store. *)
Definition incomplete_filter (u : daily_upload) : bool :=
  String.eqb (script_status u) "pending" ||
  String.eqb (thumbnail_status u) "pending" ||
  negb (String.eqb (video_status u) "completed").

Definition get_incomplete_items (upload_date : date)
  : M (list joined_upload) :=
  try_except
    (execute (SelectUploads upload_date)
       (fun db =>
          (Ok (List.filter (fun j => incomplete_filter (j_upload j))
                           (select_uploads upload_date db)), db)))
    (mret []).

(** ** ReminderManager *)

(** The throttle test on a marker's timestamp: [Some true] when less than
    [window] microseconds have passed, [None] when the subtraction raises. *)
Definition sent_within (window : Z) (now : Z) (last_sent : timestamp)
  : option bool :=
  elapsed ← elapsed_since now last_sent;
  Some (elapsed <? window).

Definition should_send_tomorrow_reminder : M (bool * list incomplete_item) :=
  try_except
    (today ← date_today;
     match date_plus_days today 1 with
     | None => raise
     | Some tomorrow =>
         incomplete ← get_incomplete_items_for_date tomorrow;
         match incomplete with
         | [] => mret (false, [])
         | _ =>
             schedule_result ← execute_select_schedule tomorrow;
             match schedule_result with
             | row :: _ =>
                 match last_reminder_sent_at row with
                 | Some last_sent =>
                     now ← utcnow;
                     match sent_within (30 * MINUTE_US) now last_sent with
                     | None => raise
                     | Some true => mret (false, incomplete)
                     | Some false => mret (true, incomplete)
                     end
                 | None => mret (true, incomplete)
                 end
             | [] => mret (true, incomplete)
             end
         end
     end)
    (mret (false, [])).

Definition is_ready_type (reminder_type : option string) : bool :=
  match reminder_type with
  | Some t => String.eqb t "ready"
  | None => false
  end.

Definition should_send_today_reminder : M (bool * option day_status) :=
  try_except
    (today ← date_today;
     status ← get_day_status today;
     match status with
     | None => mret (false, None)
     | Some st =>
         if negb (ds_all_complete st) then mret (false, None)
         else
           schedule_result ← execute_select_schedule today;
           match schedule_result with
           | row :: _ =>
               match last_reminder_sent_at row with
               | Some last_sent =>
                   if is_ready_type (reminder_type row) then
                     now ← utcnow;
                     match sent_within (3 * HOUR_US) now last_sent with
                     | None => raise
                     | Some true => mret (false, Some st)
                     | Some false => mret (true, Some st)
                     end
                   else mret (true, Some st)
               | None => mret (true, Some st)
               end
           | [] => mret (true, Some st)
           end
     end)
    (mret (false, None)).

Definition mark_reminder (now : Z) (rtype : string) (s : upload_schedule)
  : upload_schedule :=
  {| sch_upload_date := sch_upload_date s;
     all_complete := all_complete s;
     last_reminder_sent_at := Some (Naive now);
     reminder_type := Some rtype |}.

Definition log_reminder (rtype : string) (upload_date : date)
  (message_text : string) (incomplete_count : Z)
  (channels_mentioned : list string) : M bool :=
  try_except
    (let log_data := ReminderLog rtype upload_date message_text
                                 incomplete_count channels_mentioned in
     execute (InsertReminderLog log_data)
       (fun db =>
          (Ok tt, with_reminder_logs (fun l => (l ++ [log_data])%list) db));;
     now ← utcnow;
     execute (UpdateScheduleReminder upload_date rtype)
       (fun db =>
          let '(rows, hit) :=
            update_where (fun s => sch_upload_date s =? upload_date)
                         (mark_reminder now rtype) (upload_schedules db) in
          (Ok hit, with_upload_schedules (fun _ => rows) db));;
     mret true)
    (mret false).

(** ** InlineSelectionHandler *)

Definition get_channel_buttons : M unit :=
  list_channels true;; mret tt.

Definition store_selection (user_id : Z) (state : selection) : M unit :=
  fun w => (Ok tt, set_selections (<[user_id := state]> (w_selections w)) w).

Definition delete_selection (user_id : Z) : M unit :=
  fun w => (Ok tt, set_selections (delete user_id (w_selections w)) w).

Definition lookup_selection (user_id : Z) : M (option selection) :=
  fun w => (Ok (w_selections w !! user_id), w).

(** [msg_id] is the id of the message the date keyboard is sent in. *)
Definition start_selection (user_id : Z) (c : content) (msg_id : Z) : M bool :=
  try_except
    (store_selection user_id
       (Selection c "date" None None None None);;
     reply_text (SelectUploadDateFor c);;
     store_selection user_id
       (Selection c "date" None None None (Some msg_id));;
     mret true)
    (mret false).

(** The state is the dictionary the handler holds: what it reads is what
    [handle_callback] has just written. *)
Definition _process_selection (state : selection) : M bool :=
  try_except
    (record_commit state;;
     channel ← get_channel (selected_channel state);
     match channel with
     | None => mret false
     | Some ch =>
         match selected_video state with
         | None => raise
         | Some n =>
             create_upload_entry (ch_id ch) (selected_date state) n;;
             match sel_content state with
             | Script text =>
                 update_script (ch_id ch) (selected_date state) n text;;
                 mret true
             | Thumbnail fid url =>
                 update_thumbnail (ch_id ch) (selected_date state) n fid url;;
                 mret true
             | OtherContent _ => mret false
             end
         end
     end)
    (mret false).

Definition handle_callback (user_id : Z) (data : callback) : M bool :=
  try_except
    (found ← lookup_selection user_id;
     match found with
     | None => edit_message_text SelectionExpired;; mret false
     | Some state =>
         match data with
         | Cancel =>
             edit_message_text SelectionCancelled;;
             delete_selection user_id;;
             mret true
         | BackToDate =>
             store_selection user_id
               (Selection (sel_content state) "date" (selected_date state)
                          None (selected_video state) (message_id state));;
             edit_message_text SelectUploadDate;;
             mret true
         | BackToChannel =>
             store_selection user_id
               (Selection (sel_content state) "channel" (selected_date state)
                          (selected_channel state) None (message_id state));;
             get_channel_buttons;;
             edit_message_text (SelectChannelFor (selected_date state));;
             mret true
         | DatePick d =>
             store_selection user_id
               (Selection (sel_content state) "channel" (Some d)
                          (selected_channel state) (selected_video state)
                          (message_id state));;
             get_channel_buttons;;
             edit_message_text (SelectChannelFor (Some d));;
             mret true
         | ChannelPick name =>
             store_selection user_id
               (Selection (sel_content state) "video" (selected_date state)
                          (Some name) (selected_video state)
                          (message_id state));;
             edit_message_text (SelectVideoNumberFor name);;
             mret true
         | VideoPick n =>
             let state' :=
               Selection (sel_content state) (step state)
                         (selected_date state) (selected_channel state)
                         (Some n) (message_id state) in
             store_selection user_id state';;
             success ← _process_selection state';
             (if (success : bool) then
                match selected_date state' with
                | Some d =>
                    edit_message_text (SavedFor d (selected_channel state') n)
                | None => raise
                end
              else edit_message_text ErrorSaving);;
             delete_selection user_id;;
             mret true
         | Unrecognised _ => mret false
         end
     end)
    (mret false).

(** ** The bulk variant *)

Definition store_bulk (user_id : Z) (state : bulk_selection) : M unit :=
  fun w =>
    (Ok tt, set_bulk_selections (<[user_id := state]> (w_bulk_selections w)) w).

Definition delete_bulk (user_id : Z) : M unit :=
  fun w =>
    (Ok tt, set_bulk_selections (delete user_id (w_bulk_selections w)) w).

Definition lookup_bulk (user_id : Z) : M (option bulk_selection) :=
  fun w => (Ok (w_bulk_selections w !! user_id), w).

Definition handle_bulk_selection (user_id : Z) (items : list content)
  : M bool :=
  try_except
    (store_bulk user_id (BulkSelection items "date" None None);;
     reply_text (BulkSelectDate (length items));;
     mret true)
    (mret false).

(** One iteration of the loop of [_process_bulk]: the inner [try] around
    the item's commit. *)
Definition process_bulk_item (cid : Z) (d : option date) (video_number : Z)
  (item : content) (success_count : Z) : M Z :=
  try_except
    (create_upload_entry cid d video_number;;
     match item with
     | Script text => update_script cid d video_number text;; mret tt
     | Thumbnail fid url =>
         update_thumbnail cid d video_number fid url;; mret tt
     | OtherContent _ => mret tt
     end;;
     mret (success_count + 1))
    (mret success_count).

(** [for i, item in enumerate(...)], from index [i]. *)
Fixpoint process_bulk_items (cid : Z) (d : option date) (i : Z)
  (items : list content) (success_count : Z) : M Z :=
  match items with
  | [] => mret success_count
  | item :: rest =>
      success_count ← process_bulk_item cid d (i + 1) item success_count;
      process_bulk_items cid d (i + 1) rest success_count
  end.

Definition _process_bulk (state : bulk_selection) : M Z :=
  try_except
    (channel ← get_channel (bulk_selected_channel state);
     match channel with
     | None => mret 0
     | Some ch =>
         process_bulk_items (ch_id ch) (bulk_selected_date state) 0
           (take 4 (bulk_items state)) 0
     end)
    (mret 0).

Definition handle_bulk_callback (user_id : Z) (data : callback) : M bool :=
  try_except
    (found ← lookup_bulk user_id;
     match found with
     | None => mret false
     | Some state =>
         match data with
         | DatePick d =>
             store_bulk user_id
               (BulkSelection (bulk_items state) "channel" (Some d)
                              (bulk_selected_channel state));;
             get_channel_buttons;;
             edit_message_text BulkSelectChannel;;
             mret true
         | ChannelPick name =>
             let state' :=
               BulkSelection (bulk_items state) (bulk_step state)
                             (bulk_selected_date state) (Some name) in
             store_bulk user_id state';;
             success_count ← _process_bulk state';
             match bulk_selected_date state' with
             | Some d =>
                 edit_message_text
                   (BulkSaved success_count (length (bulk_items state'))
                              d name)
             | None => raise
             end;;
             delete_bulk user_id;;
             mret true
         | _ => mret false
         end
     end)
    (mret false).

(** A run of the wizard: the callbacks of one user, in order. *)
Fixpoint run_callbacks (user_id : Z) (inputs : list callback) (w : world)
  : world :=
  match inputs with
  | [] => w
  | data :: rest => run_callbacks user_id rest (handle_callback user_id data w).2
  end.

End Bot.

(** * Vocabulary of the statements *)

(** A world whose store answers every request. *)
Definition reliable (w : world) : Prop := forall n, w_fault w n = false.



(** A row with one status column overwritten. *)
Definition set_audio_status (a : string) (u : daily_upload) : daily_upload :=
  apply_patch
    {| p_script_status := None; p_thumbnail_status := None;
       p_video_status := None; p_audio_status := Some a;
       p_script_text := None; p_script_received_at := None;
       p_thumbnail_gdrive_id := None; p_thumbnail_gdrive_url := None;
       p_video_gdrive_id := None; p_video_gdrive_url := None;
       p_error_message := None; p_processing_completed_at := None;
       p_updated_at := None |} u.

Definition set_video_status (v : string) (u : daily_upload) : daily_upload :=
  apply_patch
    {| p_script_status := None; p_thumbnail_status := None;
       p_video_status := Some v; p_audio_status := None;
       p_script_text := None; p_script_received_at := None;
       p_thumbnail_gdrive_id := None; p_thumbnail_gdrive_url := None;
       p_video_gdrive_id := None; p_video_gdrive_url := None;
       p_error_message := None; p_processing_completed_at := None;
       p_updated_at := None |} u.

(** The uploads grouped under channel [c], and the entry of [c] in a
    [channels_status] dictionary. *)
Definition of_channel (c : string) (u : joined_upload) : bool :=
  match j_channels u with
  | Some name => String.eqb name c
  | None => false
  end.

Definition status_of_channel (c : string) (m : gmap string channel_status)
  : channel_status :=
  default new_channel_status (m !! c).


(** 2025-01-21. *)
Definition date_2025_01_21 : date := 739272.

(** A freshly created slot: every status pending. *)
Definition pending_slot (cid : Z) (d : date) (n : Z) : daily_upload :=
  apply_patch create_patch (blank_upload cid d n).

(** Slot 2 of channel 1 on 2025-01-21 with script and thumbnail received and
    the video (and audio) still pending. *)
Definition slot_awaiting_video : daily_upload :=
  {| channel_id := 1; upload_date := date_2025_01_21; video_number := 2;
     script_status := "received"; thumbnail_status := "received";
     video_status := "pending"; audio_status := "pending";
     script_text := Some "text"; script_received_at := Some (Naive 0);
     thumbnail_gdrive_id := Some "file"; thumbnail_gdrive_url := None;
     video_gdrive_id := None; video_gdrive_url := None;
     error_message := None; processing_completed_at := None;
     updated_at := Some (Naive 0) |}.

(** Scenario 1: slot 2 with script pending, thumbnail received, video
    pending. *)
Definition slot_awaiting_script : daily_upload :=
  {| channel_id := 1; upload_date := date_2025_01_21; video_number := 2;
     script_status := "pending"; thumbnail_status := "received";
     video_status := "pending"; audio_status := "pending";
     script_text := None; script_received_at := None;
     thumbnail_gdrive_id := Some "file"; thumbnail_gdrive_url := None;
     video_gdrive_id := None; video_gdrive_url := None;
     error_message := None; processing_completed_at := None;
     updated_at := Some (Naive 0) |}.

(** A world at rest: a store, a clock, no request failing, no wizard open. *)
Definition no_faults : nat -> bool := fun _ => false.

Definition world_of (db : store) (now : Z) (today : date) : world :=
  World db now today 0 no_faults [] ∅ ∅ [] [].

Definition two_channels : list channel :=
  [Channel 1 "BI" true; Channel 2 "GYH" true].

(** Slot 2 of channel BI on 2025-01-21 after its thumbnail was received. *)
Definition slot_with_thumbnail : daily_upload :=
  {| channel_id := 1; upload_date := date_2025_01_21; video_number := 2;
     script_status := "pending"; thumbnail_status := "received";
     video_status := "pending"; audio_status := "pending";
     script_text := None; script_received_at := None;
     thumbnail_gdrive_id := Some "file"; thumbnail_gdrive_url := None;
     video_gdrive_id := None; video_gdrive_url := None;
     error_message := None; processing_completed_at := None;
     updated_at := Some (Naive 0) |}.

Definition store_with_thumbnail : store :=
  Store two_channels [slot_with_thumbnail] [] [] [].

(** The rows of a store holding the key (channel, date, number). *)
Definition rows_with_key (cid : Z) (d : date) (n : Z) (db : store)
  : list daily_upload :=
  List.filter (same_key cid (Some d) n) (daily_uploads db).




(** What the last-sent marker of a schedule row leaves open for the
    "today ready" reminder at time [now]: no marker, a marker of another
    type, or a 'ready' marker at least three hours old. *)
Definition ready_marker_allows (now : Z) (row : upload_schedule) : Prop :=
  last_reminder_sent_at row = None \/
  is_ready_type (reminder_type row) = false \/
  exists T,
    last_reminder_sent_at row = Some (Naive T) /\ T + 3 * HOUR_US <= now.

(** A slot with everything done. *)
Definition completed_slot (cid : Z) (d : date) (n : Z) : daily_upload :=
  {| channel_id := cid; upload_date := d; video_number := n;
     script_status := "processed"; thumbnail_status := "received";
     video_status := "completed"; audio_status := "completed";
     script_text := Some "text"; script_received_at := Some (Naive 0);
     thumbnail_gdrive_id := Some "file"; thumbnail_gdrive_url := None;
     video_gdrive_id := Some "video"; video_gdrive_url := None;
     error_message := None; processing_completed_at := Some (Naive 0);
     updated_at := Some (Naive 0) |}.

(** 2025-01-21 with one active channel whose four slots are completed; the
    schedule row of the day carries the given [all_complete] flag and
    marker. *)
Definition store_all_completed (flag : bool) (marker : option timestamp)
  (rtype : option string) : store :=
  Store [Channel 1 "BI" true]
        [completed_slot 1 date_2025_01_21 1;
         completed_slot 1 date_2025_01_21 2;
         completed_slot 1 date_2025_01_21 3;
         completed_slot 1 date_2025_01_21 4]
        [UploadSchedule date_2025_01_21 flag marker rtype] [] [].

(** A stored procedure that creates nothing. *)
Definition no_skeleton : date -> store -> store := fun _ db => db.

(** 2025-01-20, with slot 2 of tomorrow still waiting for its script and
    tomorrow's schedule row carrying the given marker. *)
Definition store_tomorrow_incomplete (marker : option timestamp) : store :=
  Store two_channels [slot_awaiting_script]
        [UploadSchedule date_2025_01_21 false marker
                        (Some "tomorrow_incomplete")] [] [].

Definition date_2025_01_20 : date := 739271.

(** Everything of the world but the store, its request log and its tick. *)
Definition same_session (w w' : world) : Prop :=
  w_selections w' = w_selections w /\
  w_bulk_selections w' = w_bulk_selections w /\
  w_commits w' = w_commits w /\
  w_replies w' = w_replies w /\
  w_fault w' = w_fault w /\
  w_now w' = w_now w /\
  w_today w' = w_today w.

(** A computation that only talks to the store. *)
Definition remote_only {A} (c : M A) : Prop :=
  forall w, same_session w (c w).2.

(** A computation that never raises. *)
Definition never_raises {A} (c : M A) : Prop :=
  forall w, exists a, (c w).1 = Ok a.

(** The requests one call of [_process_selection] may issue for a state. *)
Definition commit_requests (st : selection) (rs : list request) : Prop :=
  let lookup := SelectChannelByName (filter_text (selected_channel st)) in
  rs = [lookup] \/
  exists cid n,
    selected_video st = Some n /\
    let create := UpsertUpload cid (selected_date st) n in
    rs = [lookup; create] \/
    (exists text, sel_content st = Script text /\
       rs = [lookup; create; UpdateScript cid (selected_date st) n text]) \/
    (exists fid url, sel_content st = Thumbnail fid url /\
       rs = [lookup; create;
             UpdateThumbnail cid (selected_date st) n fid url]).

(** The state the wizard holds after a date, channel or back callback. *)
Definition after_callback (data : callback) (state : selection) : selection :=
  match data with
  | BackToDate =>
      Selection (sel_content state) "date" (selected_date state) None
                (selected_video state) (message_id state)
  | BackToChannel =>
      Selection (sel_content state) "channel" (selected_date state)
                (selected_channel state) None (message_id state)
  | DatePick d =>
      Selection (sel_content state) "channel" (Some d)
                (selected_channel state) (selected_video state)
                (message_id state)
  | ChannelPick name =>
      Selection (sel_content state) "video" (selected_date state)
                (Some name) (selected_video state) (message_id state)
  | VideoPick n =>
      Selection (sel_content state) (step state) (selected_date state)
                (selected_channel state) (Some n) (message_id state)
  | _ => state
  end.

Definition is_navigation (data : callback) : bool :=
  match data with
  | BackToDate | BackToChannel | DatePick _ | ChannelPick _ => true
  | _ => false
  end.

Definition is_creation (r : request) : bool :=
  match r with UpsertUpload _ _ _ => true | _ => false end.

Definition is_field_update (r : request) : bool :=
  match r with
  | UpdateScript _ _ _ _ | UpdateThumbnail _ _ _ _ _
  | UpdateVideoStatus _ _ _ _ => true
  | _ => false
  end.

Definition is_write (r : request) : bool := is_creation r || is_field_update r.

(** Slot creations and field updates requested so far. *)
Definition writes (w : world) : list request :=
  List.filter is_write (w_requests w).



(** The back button on the keyboard shown at a step ([get_channel_buttons]
    carries back_to_date, [get_video_number_buttons] back_to_channel), and
    the step before a step. *)
Definition back_button (step : string) : option callback :=
  if String.eqb step "channel" then Some BackToDate
  else if String.eqb step "video" then Some BackToChannel
  else None.

Definition previous_step (step : string) : option string :=
  if String.eqb step "channel" then Some "date"
  else if String.eqb step "video" then Some "channel"
  else None.




(** The wizard's third scenario, as a list of callbacks. *)
Definition scenario_3 : list callback :=
  [DatePick date_2025_01_21; ChannelPick "BI"; BackToChannel;
   ChannelPick "GYH"; VideoPick 3].

(** 2025-01-21, channels BI (id 1) and GYH (id 2), no slot yet. *)
Definition fresh_world : world :=
  world_of (Store two_channels [] [] [] []) 5 date_2025_01_21.


(** User 7 submits a script and walks the wizard through [inputs]. *)
Definition wizard_run (w : world) (inputs : list callback) : world :=
  run_callbacks 7 inputs (start_selection 7 (Script "hello") 1 w).2.




(** The store with slot (BI, 2025-01-21, 2) holding a thumbnail, after the
    slot is created again, and after a script is routed to it by the
    wizard. *)
Definition world_after_recreate : world :=
  (create_upload_entry 1 (Some date_2025_01_21) 2
     (world_of store_with_thumbnail 5 date_2025_01_21)).2.

Definition world_after_script : world :=
  wizard_run (world_of store_with_thumbnail 5 date_2025_01_21)
    [DatePick date_2025_01_21; ChannelPick "BI"; VideoPick 2].

(** * Properties *)

(** ** The status tier (lines 112-129 of [get_day_status]) *)

Section Tier.
Local Open Scope Q_scope.









End Tier.

(** Unfolds the monad down to the world. *)
Ltac unfold_monad :=
  cbv beta iota delta
    [try_except execute_select_schedule execute_select_uploads
     initialize_date first_or_raise raise utcnow date_today execute
     mbind M_bind bind mret M_ret ret set_db issue] in *.


Section DayStatus.
Variable skeleton : date -> store -> store.




End DayStatus.

(** ** The per-channel breakdown (lines 131-157 of [get_day_status]) *)

Section Breakdown.

Lemma group_by_channel_lookup uploads : forall acc m c,
  group_by_channel uploads acc = Some m ->
  status_of_channel c m =
    fold_left (fun cs u => add_upload u cs)
              (List.filter (of_channel c) uploads) (status_of_channel c acc).
Proof.
  induction uploads as [|u rest IH]; intros acc m c H; simpl in H.
  - injection H as <-. reflexivity.
  - destruct (j_channels u) as [name|] eqn:En; [|discriminate].
    rewrite (IH _ _ c H). simpl.
    assert (Eo : of_channel c u = String.eqb name c)
      by (unfold of_channel; now rewrite En).
    rewrite Eo.
    destruct (String.eqb_spec name c) as [->|Hne]; simpl.
    + unfold status_of_channel. rewrite lookup_insert_eq. reflexivity.
    + unfold status_of_channel. rewrite lookup_insert_ne by exact Hne.
      reflexivity.
Qed.

Lemma fold_add_upload_missing l : forall cs,
  cs_missing (fold_left (fun cs u => add_upload u cs) l cs) =
  (cs_missing cs ++ flat_map (fun u => missing_of (j_upload u)) l)%list.
Proof.
  induction l as [|u l IH]; intros cs; simpl.
  - now rewrite app_nil_r.
  - rewrite IH. simpl. now rewrite <- app_assoc.
Qed.

Lemma fold_add_upload_total l : forall cs,
  cs_total (fold_left (fun cs u => add_upload u cs) l cs) =
  cs_total cs + Z.of_nat (length l).
Proof.
  induction l as [|u l IH]; intros cs; simpl length.
  - simpl. lia.
  - simpl fold_left. rewrite IH. simpl. lia.
Qed.

Lemma fold_add_upload_completed l : forall cs,
  cs_completed (fold_left (fun cs u => add_upload u cs) l cs) =
  cs_completed cs + count_if video_completed l.
Proof.
  induction l as [|u l IH]; intros cs.
  - unfold count_if. simpl. lia.
  - simpl fold_left. rewrite IH. unfold count_if. simpl.
    destruct (video_completed u); simpl length; lia.
Qed.

Lemma missing_label_field n f g :
  missing_label n f = missing_label n g -> f = g.
Proof.
  unfold missing_label. intros H.
  do 3 apply String.app_inj in H. exact H.
Qed.

Lemma missing_of_entries u :
  (In (missing_label (video_number u) "script") (missing_of u) <->
   script_status u = "pending") /\
  (In (missing_label (video_number u) "thumbnail") (missing_of u) <->
   thumbnail_status u = "pending") /\
  (forall entry, In entry (missing_of u) ->
     entry = missing_label (video_number u) "script" \/
     entry = missing_label (video_number u) "thumbnail").
Proof.
  unfold missing_of.
  destruct (String.eqb_spec (script_status u) "pending") as [Es|Es];
    destruct (String.eqb_spec (thumbnail_status u) "pending") as [Et|Et];
    simpl; repeat split; intros; try tauto;
    repeat match goal with
      | H : _ \/ _ |- _ => destruct H
      | H : False |- _ => destruct H
      | H : missing_label _ _ = missing_label _ _ |- _ =>
          apply missing_label_field in H; discriminate H
      end; auto.
Qed.

Lemma day_status_of_channel d sched uploads st c :
  day_status_of d sched uploads = Some st ->
  let mine := List.filter (of_channel c) uploads in
  cs_missing (status_of_channel c (ds_channels st)) =
    flat_map (fun u => missing_of (j_upload u)) mine /\
  cs_total (status_of_channel c (ds_channels st)) = Z.of_nat (length mine) /\
  cs_completed (status_of_channel c (ds_channels st)) =
    count_if video_completed mine /\
  total_videos st = Z.of_nat (length uploads).
Proof.
  unfold day_status_of. intros H.
  destruct (group_by_channel uploads ∅) as [m|] eqn:E; simpl in H;
    [|discriminate].
  injection H as <-. simpl.
  rewrite (group_by_channel_lookup _ _ _ c E).
  rewrite fold_add_upload_missing, fold_add_upload_total,
    fold_add_upload_completed.
  unfold status_of_channel. rewrite lookup_empty. simpl. auto.
Qed.

(** C6 (amended). In the per-channel breakdown of [get_day_status] each of
    the script and thumbnail fields that is still 'pending' contributes the
    labelled entry of its slot and nothing else does (the video and audio
    fields never contribute); every slot of the channel, completed or not,
    counts in the channel's total and in [total_videos]; a slot 2 with
    script pending, thumbnail received and video pending yields exactly
    "V2 script". *)
Theorem missing_entries_are_script_and_thumbnail :
  (forall u : daily_upload,
     (In (missing_label (video_number u) "script") (missing_of u) <->
      script_status u = "pending") /\
     (In (missing_label (video_number u) "thumbnail") (missing_of u) <->
      thumbnail_status u = "pending") /\
     (forall entry, In entry (missing_of u) ->
        entry = missing_label (video_number u) "script" \/
        entry = missing_label (video_number u) "thumbnail")) /\
  (forall u v a,
     missing_of (set_video_status v (set_audio_status a u)) = missing_of u) /\
  (forall d sched uploads st c,
     day_status_of d sched uploads = Some st ->
     cs_missing (status_of_channel c (ds_channels st)) =
       flat_map (fun u => missing_of (j_upload u))
                (List.filter (of_channel c) uploads) /\
     cs_total (status_of_channel c (ds_channels st)) =
       Z.of_nat (length (List.filter (of_channel c) uploads)) /\
     cs_completed (status_of_channel c (ds_channels st)) =
       count_if video_completed (List.filter (of_channel c) uploads) /\
     total_videos st = Z.of_nat (length uploads)) /\
  (forall u d sched,
     video_number u = 2 -> script_status u = "pending" ->
     thumbnail_status u = "received" -> video_status u = "pending" ->
     missing_of u = ["V2 script"] /\
     exists st,
       day_status_of d sched [JoinedUpload u (Some "ChannelX")] = Some st /\
       cs_missing (status_of_channel "ChannelX" (ds_channels st)) =
         ["V2 script"] /\
       cs_total (status_of_channel "ChannelX" (ds_channels st)) = 1 /\
       total_videos st = 1).
Proof.
  split; [|split; [|split]].
  - apply missing_of_entries.
  - reflexivity.
  - intros d sched uploads st c H. exact (day_status_of_channel _ _ _ _ c H).
  - intros u d sched Hn Hs Ht Hv.
    assert (Hm : missing_of u = ["V2 script"]).
    { unfold missing_of. rewrite Hn, Hs, Ht. reflexivity. }
    split; [exact Hm|].
    destruct (day_status_of d sched [JoinedUpload u (Some "ChannelX")])
      as [st|] eqn:E; [|discriminate E].
    exists st. split; [reflexivity|].
    destruct (day_status_of_channel _ _ _ _ "ChannelX" E) as (A & B & _ & D).
    simpl in A, B, D. rewrite app_nil_r in A. rewrite A, B, D, Hm. auto.
Qed.

End Breakdown.

(** C6 as stated fails for the video (and audio) field: a slot whose video
    status is still 'pending' while script and thumbnail are received
    contributes no entry at all. *)
Lemma pending_video_field_contributes_no_entry :
  video_status slot_awaiting_video = "pending" /\
  audio_status slot_awaiting_video = "pending" /\
  missing_of slot_awaiting_video = [] /\
  exists st,
    day_status_of date_2025_01_21 None
      [JoinedUpload slot_awaiting_video (Some "ChannelX")] = Some st /\
    cs_missing (status_of_channel "ChannelX" (ds_channels st)) = [] /\
    cs_total (status_of_channel "ChannelX" (ds_channels st)) = 1.
Proof.
  repeat split. eexists. split; [reflexivity|]. split; reflexivity.
Qed.

(** Scenario 1 through the theorem. *)
Lemma scenario_1_lists_V2_script :
  missing_of slot_awaiting_script = ["V2 script"] /\
  exists st,
    day_status_of date_2025_01_21 None
      [JoinedUpload slot_awaiting_script (Some "ChannelX")] = Some st /\
    cs_missing (status_of_channel "ChannelX" (ds_channels st)) =
      ["V2 script"] /\
    cs_total (status_of_channel "ChannelX" (ds_channels st)) = 1 /\
    total_videos st = 1.
Proof.
  apply (proj2 (proj2 (proj2 missing_entries_are_script_and_thumbnail)));
    reflexivity.
Defined.

(** ** Incomplete items ([get_incomplete_items_for_date]) *)

Section Incomplete.






End Incomplete.

(** ** Upload slots ([DailyUploadManager]) *)

Section Slots.

Lemma same_key_apply_patch cid d n p r :
  same_key cid d n (apply_patch p r) = same_key cid d n r.
Proof. destruct d; reflexivity. Qed.

Lemma update_where_rows {R} (p : R -> bool) (f : R -> R) rows :
  (forall r, p (f r) = p r) ->
  length (update_where p f rows).1 = length rows /\
  List.filter p (update_where p f rows).1 = map f (List.filter p rows) /\
  List.filter (fun r => negb (p r)) (update_where p f rows).1 =
    List.filter (fun r => negb (p r)) rows.
Proof.
  intros Hp. unfold update_where. simpl. split; [apply length_map|].
  induction rows as [|r rows [IH1 IH2]]; [split; reflexivity|].
  simpl. destruct (p r) eqn:E; simpl.
  - rewrite Hp, E. simpl. now rewrite IH1, IH2.
  - rewrite E. simpl. now rewrite IH1, IH2.
Qed.

Lemma create_upload_entry_db w cid d n :
  w_fault w (w_tick w) = false ->
  w_db (create_upload_entry cid d n w).2 =
  (upsert_upload cid d n create_patch (w_db w)).2.
Proof.
  intros Hf. unfold create_upload_entry.
  cbv beta iota delta
    [first_or_raise raise execute mbind M_bind bind mret M_ret ret].
  rewrite Hf.
  destruct (upsert_upload cid d n create_patch (w_db w)) as [[[|r l]|] db'];
    reflexivity.
Qed.

Lemma upsert_upload_rows cid d n p db :
  daily_uploads (upsert_upload cid (Some d) n p db).2 =
  if existsb (same_key cid (Some d) n) (daily_uploads db)
  then (update_where (same_key cid (Some d) n) (apply_patch p)
                     (daily_uploads db)).1
  else (daily_uploads db ++ [apply_patch p (blank_upload cid d n)])%list.
Proof.
  unfold upsert_upload.
  destruct (existsb (same_key cid (Some d) n) (daily_uploads db));
    reflexivity.
Qed.

Lemma existsb_filter_nil {A} (p : A -> bool) l :
  existsb p l = false -> List.filter p l = [].
Proof.
  induction l as [|a l IH]; simpl; [reflexivity|].
  destruct (p a); simpl; [discriminate|exact IH].
Qed.

Lemma existsb_filter_cons {A} (p : A -> bool) l :
  existsb p l = true -> (1 <= length (List.filter p l))%nat.
Proof.
  induction l as [|a l IH]; simpl; [discriminate|].
  destruct (p a); simpl; [lia|exact IH].
Qed.

(** Creating the entry of a key never leaves two rows where there was one:
    an existing key keeps its number of rows, a fresh key gets exactly one
    row; rows of other keys are not touched. *)
Lemma create_upload_entry_adds_no_duplicate w cid d n :
  w_fault w (w_tick w) = false ->
  let w' := (create_upload_entry cid (Some d) n w).2 in
  length (rows_with_key cid d n (w_db w')) =
    Nat.max 1 (length (rows_with_key cid d n (w_db w))) /\
  List.filter (fun r => negb (same_key cid (Some d) n r))
              (daily_uploads (w_db w')) =
  List.filter (fun r => negb (same_key cid (Some d) n r))
              (daily_uploads (w_db w)).
Proof.
  intros Hf. cbv zeta. unfold rows_with_key.
  rewrite (create_upload_entry_db _ _ _ _ Hf), upsert_upload_rows.
  destruct (existsb (same_key cid (Some d) n) (daily_uploads (w_db w)))
    eqn:Ex.
  - pose proof (update_where_rows (same_key cid (Some d) n)
                  (apply_patch create_patch) (daily_uploads (w_db w))
                  (same_key_apply_patch cid (Some d) n create_patch))
      as (Hl & Hk & Ho).
    rewrite Hk, Ho, length_map. split; [|reflexivity].
    pose proof (existsb_filter_cons _ _ Ex). lia.
  - assert (Hk : same_key cid (Some d) n
                    (apply_patch create_patch (blank_upload cid d n)) = true).
    { rewrite same_key_apply_patch. unfold same_key, blank_upload. simpl.
      now rewrite !Z.eqb_refl. }
    rewrite !List.filter_app, (existsb_filter_nil _ _ Ex).
    cbn [List.filter]. rewrite Hk. cbn [negb app length].
    rewrite app_nil_r. split; reflexivity.
Qed.

(** An update writes the columns its dictionary names and no other. *)
Lemma updates_leave_other_columns r text gid gurl status vid vurl err now :
  let s := apply_patch (script_patch text now) r in
  let t := apply_patch (thumbnail_patch gid gurl now) r in
  let v := apply_patch (video_status_patch status vid vurl err now) r in
  (channel_id s, upload_date s, video_number s, thumbnail_status s,
   video_status s, audio_status s, thumbnail_gdrive_id s,
   thumbnail_gdrive_url s, video_gdrive_id s, video_gdrive_url s,
   error_message s, processing_completed_at s) =
  (channel_id r, upload_date r, video_number r, thumbnail_status r,
   video_status r, audio_status r, thumbnail_gdrive_id r,
   thumbnail_gdrive_url r, video_gdrive_id r, video_gdrive_url r,
   error_message r, processing_completed_at r) /\
  (channel_id t, upload_date t, video_number t, script_status t,
   video_status t, audio_status t, script_text t, script_received_at t,
   video_gdrive_id t, video_gdrive_url t, error_message t,
   processing_completed_at t) =
  (channel_id r, upload_date r, video_number r, script_status r,
   video_status r, audio_status r, script_text r, script_received_at r,
   video_gdrive_id r, video_gdrive_url r, error_message r,
   processing_completed_at r) /\
  (channel_id v, upload_date v, video_number v, script_status v,
   thumbnail_status v, audio_status v, script_text v, script_received_at v,
   thumbnail_gdrive_id v, thumbnail_gdrive_url v) =
  (channel_id r, upload_date r, video_number r, script_status r,
   thumbnail_status r, audio_status r, script_text r, script_received_at r,
   thumbnail_gdrive_id r, thumbnail_gdrive_url r).
Proof. repeat split. Qed.

(** Re-creating an existing slot overwrites its four status columns. *)
Lemma create_upload_entry_overwrites_statuses w cid d n r :
  w_fault w (w_tick w) = false ->
  In r (rows_with_key cid d n (w_db w)) ->
  let w' := (create_upload_entry cid (Some d) n w).2 in
  In (apply_patch create_patch r) (rows_with_key cid d n (w_db w')) /\
  thumbnail_status (apply_patch create_patch r) = "pending" /\
  script_status (apply_patch create_patch r) = "pending" /\
  video_status (apply_patch create_patch r) = "pending" /\
  audio_status (apply_patch create_patch r) = "pending".
Proof.
  intros Hf Hin. cbv zeta. repeat split.
  unfold rows_with_key in *.
  rewrite (create_upload_entry_db _ _ _ _ Hf), upsert_upload_rows.
  assert (Ex : existsb (same_key cid (Some d) n) (daily_uploads (w_db w))
               = true).
  { apply filter_In in Hin. apply existsb_exists. exists r. tauto. }
  rewrite Ex.
  pose proof (update_where_rows (same_key cid (Some d) n)
                (apply_patch create_patch) (daily_uploads (w_db w))
                (same_key_apply_patch cid (Some d) n create_patch))
    as (_ & Hk & _).
  rewrite Hk. now apply in_map.
Qed.

End Slots.

(** C5. Creating the entry of a key that exists adds no row, and an update
    leaves the columns it does not name alone (the two lemmas above); but
    re-creating an existing slot does alter its other status fields.  On the
    store holding slot (BI, 2025-01-21, 2) with its thumbnail received,
    [create_upload_entry] keeps the single row and its thumbnail file, and
    resets 'thumbnail_status' from 'received' to 'pending'; the wizard does
    this whenever a script is assigned to such a slot. *)
Theorem recreating_a_slot_resets_its_statuses :
  map thumbnail_status (daily_uploads store_with_thumbnail) = ["received"] /\
  (length (daily_uploads (w_db world_after_recreate)) = 1%nat /\
   map thumbnail_status (daily_uploads (w_db world_after_recreate)) =
     ["pending"] /\
   map thumbnail_gdrive_id (daily_uploads (w_db world_after_recreate)) =
     [Some "file"]) /\
  (w_replies world_after_script =
     [SelectUploadDateFor (Script "hello");
      SelectChannelFor (Some date_2025_01_21);
      SelectVideoNumberFor "BI"; SavedFor date_2025_01_21 (Some "BI") 2] /\
   map script_status (daily_uploads (w_db world_after_script)) =
     ["received"] /\
   map thumbnail_status (daily_uploads (w_db world_after_script)) =
     ["pending"] /\
   map thumbnail_gdrive_id (daily_uploads (w_db world_after_script)) =
     [Some "file"]).
Proof. repeat split. Qed.

(** ** Archiving folders ([archive_old_folders]) *)

Section Archive.





End Archive.



(** ** Reminders ([ReminderManager]) *)

Section Reminders.
Variable skeleton : date -> store -> store.

Lemma get_day_status_cases d w :
  let r := get_day_status skeleton d w in
  ((exists st, r.1 = Ok (Some st) /\
      day_status_of d (head (select_schedule d (w_db r.2)))
                    (select_uploads d (w_db r.2)) = Some st) \/
   r.1 = Ok None) /\
  w_now r.2 = w_now w /\ w_today r.2 = w_today w /\
  w_fault r.2 = w_fault w /\
  (select_schedule d (w_db w) <> [] -> w_db r.2 = w_db w).
Proof.
  cbv zeta. unfold get_day_status. unfold_monad.
  destruct (w_fault w (w_tick w)) eqn:F0; simpl.
  { repeat split; auto. }
  destruct (select_schedule d (w_db w)) as [|row rest] eqn:Es; simpl.
  - destruct (w_fault w (S (w_tick w))) eqn:F1; simpl;
      destruct (w_fault w (S (S (w_tick w)))) eqn:F2; simpl;
      try (repeat split; auto; congruence);
      destruct (w_fault w (S (S (S (w_tick w))))) eqn:F3; simpl;
      try (repeat split; auto; congruence).
    + destruct (day_status_of d (head (select_schedule d (w_db w)))
                  (select_uploads d (w_db w))) as [st|] eqn:Ed; simpl;
        repeat split; eauto; congruence.
    + destruct (day_status_of d (head (select_schedule d (skeleton d (w_db w))))
                  (select_uploads d (skeleton d (w_db w)))) as [st|] eqn:Ed; simpl;
        repeat split; eauto; congruence.
  - destruct (w_fault w (S (w_tick w))) eqn:F1; simpl;
      try (repeat split; auto; congruence).
    destruct (day_status_of d (Some row)
                  (select_uploads d (w_db w))) as [st|] eqn:Ed; simpl;
        rewrite ?Es; simpl; repeat split; eauto; congruence.
Qed.

Lemma day_status_of_all_complete d sched uploads st :
  day_status_of d sched uploads = Some st ->
  ds_all_complete st =
    match sched with Some s => all_complete s | None => false end.
Proof.
  unfold day_status_of. intros H.
  destruct (group_by_channel uploads ∅); simpl in H; [|discriminate].
  now injection H as <-.
Qed.

Lemma today_reminder_only_if w st :
  (should_send_today_reminder skeleton w).1 = Ok (true, st) ->
  exists status row,
    st = Some status /\ ds_all_complete status = true /\
    head (select_schedule (w_today w)
            (w_db (should_send_today_reminder skeleton w).2)) = Some row /\
    all_complete row = true /\
    ready_marker_allows (w_now w) row.
Proof.
  unfold should_send_today_reminder.
  cbv beta iota delta [try_except date_today mbind M_bind bind mret M_ret ret].
  pose proof (get_day_status_cases (w_today w) w) as (Hc & Hn & Ht & Hf & _).
  cbv zeta in Hc, Hn, Ht, Hf.
  destruct (get_day_status skeleton (w_today w) w) as [[[status|]|] w1] eqn:G;
    simpl in Hc, Hn, Ht, Hf; simpl; try discriminate.
  destruct Hc as [(st0 & Hs & Hd)|Hc]; [|discriminate]. injection Hs as <-.
  pose proof (day_status_of_all_complete _ _ _ _ Hd) as Ha.
  destruct (ds_all_complete status) eqn:Eall; simpl; [|discriminate].
  unfold execute_select_schedule, execute, utcnow, raise.
  destruct (w_fault w1 (w_tick w1)); simpl; [discriminate|].
  destruct (select_schedule (w_today w) (w_db w1)) as [|row rest] eqn:Es;
    simpl in Ha; [discriminate|].
  destruct (last_reminder_sent_at row) as [[T|T]|] eqn:El; simpl.
  - destruct (is_ready_type (reminder_type row)) eqn:Er; simpl.
    + unfold sent_within. simpl.
      destruct (w_now w1 - T <? 3 * HOUR_US) eqn:Ew; simpl; [discriminate|].
      intros H. injection H as <-. rewrite Es. simpl.
      exists status, row. repeat split; auto.
      right; right. exists T. split; [exact El|].
      apply Z.ltb_ge in Ew. lia.
    + intros H. injection H as <-. rewrite Es.
      exists status, row. repeat split; auto. right; left. exact Er.
  - destruct (is_ready_type (reminder_type row)) eqn:Er; simpl;
      [discriminate|].
    intros H. injection H as <-. rewrite Es.
    exists status, row. repeat split; auto. right; left. exact Er.
  - intros H. injection H as <-. rewrite Es.
    exists status, row. repeat split; auto. left. exact El.
Qed.
Lemma today_reminder_throttled w row rest T :
  select_schedule (w_today w) (w_db w) = row :: rest ->
  last_reminder_sent_at row = Some (Naive T) ->
  is_ready_type (reminder_type row) = true ->
  w_now w < T + 3 * HOUR_US ->
  exists st, (should_send_today_reminder skeleton w).1 = Ok (false, st).
Proof.
  intros Es El Er Hlt.
  unfold should_send_today_reminder.
  cbv beta iota delta [try_except date_today mbind M_bind bind mret M_ret ret].
  pose proof (get_day_status_cases (w_today w) w) as (Hc & Hn & Ht & Hf & Hdb).
  cbv zeta in Hc, Hn, Ht, Hf, Hdb.
  destruct (get_day_status skeleton (w_today w) w) as [[[status|]|] w1] eqn:G;
    simpl in Hc, Hn, Ht, Hf, Hdb; simpl; eauto.
  destruct (ds_all_complete status) eqn:Eall; simpl; eauto.
  unfold execute_select_schedule, execute, utcnow, raise.
  destruct (w_fault w1 (w_tick w1)); simpl; eauto.
  rewrite Hdb by congruence. rewrite Es, El, Er. simpl.
  unfold sent_within. simpl. rewrite Hn.
  assert (Ew : (w_now w - T <? 3 * HOUR_US) = true) by (apply Z.ltb_lt; lia).
  rewrite Ew. simpl. eauto.
Qed.

Lemma today_reminder_first_evaluation w row rest st :
  reliable w ->
  select_schedule (w_today w) (w_db w) = row :: rest ->
  all_complete row = true ->
  last_reminder_sent_at row = None ->
  day_status_of (w_today w) (Some row)
                (select_uploads (w_today w) (w_db w)) = Some st ->
  (should_send_today_reminder skeleton w).1 = Ok (true, Some st).
Proof.
  intros Hr Es Ha El Hd.
  pose proof (day_status_of_all_complete _ _ _ _ Hd) as Hall. simpl in Hall.
  unfold should_send_today_reminder, get_day_status.
  cbv beta iota delta
    [try_except execute_select_schedule execute_select_uploads
     initialize_date first_or_raise raise utcnow date_today execute
     mbind M_bind bind mret M_ret ret set_db issue].
  rewrite Hr, Es. simpl. rewrite Hr. simpl. rewrite Hd. simpl.
  rewrite Hall, Ha. simpl. rewrite Hr, Es, El. reflexivity.
Qed.

Lemma log_reminder_marks w rtype d msg cnt chans :
  reliable w ->
  let r := log_reminder rtype d msg cnt chans w in
  r.1 = Ok true /\
  select_schedule d (w_db r.2) =
    map (mark_reminder (w_now w) rtype) (select_schedule d (w_db w)) /\
  w_today r.2 = w_today w /\ w_fault r.2 = w_fault w.
Proof.
  intros Hr. cbv zeta. unfold log_reminder.
  cbv beta iota delta
    [try_except raise utcnow execute mbind M_bind bind mret M_ret ret
     set_db issue].
  rewrite Hr. simpl. rewrite Hr. simpl.
  repeat split.
  unfold select_schedule. simpl.
  pose proof (update_where_rows (fun s => sch_upload_date s =? d)
                (mark_reminder (w_now w) rtype)
                (upload_schedules (w_db w)) (fun s => eq_refl)) as (_ & Hk & _).
  exact Hk.
Qed.

Lemma today_reminder_after_ready_log w msg cnt chans t :
  reliable w ->
  select_schedule (w_today w) (w_db w) <> [] ->
  t < w_now w + 3 * HOUR_US ->
  exists st,
    (should_send_today_reminder skeleton
       (set_now t (log_reminder "ready" (w_today w) msg cnt chans w).2)).1
    = Ok (false, st).
Proof.
  intros Hr Hne Hlt.
  destruct (log_reminder_marks w "ready" (w_today w) msg cnt chans Hr)
    as (_ & Hs & Ht & _).
  destruct (select_schedule (w_today w) (w_db w)) as [|row rest] eqn:Es;
    [congruence|].
  eapply (today_reminder_throttled _ (mark_reminder (w_now w) "ready" row)
            (map (mark_reminder (w_now w) "ready") rest) (w_now w)).
  - simpl. rewrite Ht. exact Hs.
  - reflexivity.
  - reflexivity.
  - simpl. exact Hlt.
Qed.

(** The "tomorrow incomplete" check fires only with outstanding slots: the
    items it returns are the incomplete slots of tomorrow, and there is at
    least one. *)
Lemma tomorrow_reminder_only_if w items :
  (should_send_tomorrow_reminder w).1 = Ok (true, items) ->
  items <> [] /\
  exists tomorrow,
    date_plus_days (w_today w) 1 = Some tomorrow /\
    collect_incomplete (select_uploads tomorrow (w_db w)) = Some items.
Proof.
  unfold should_send_tomorrow_reminder, get_incomplete_items_for_date.
  unfold_monad.
  destruct (date_plus_days (w_today w) 1) as [tomorrow|]; simpl;
    [|discriminate].
  destruct (w_fault w (w_tick w)); simpl; [discriminate|].
  destruct (collect_incomplete (select_uploads tomorrow (w_db w)))
    as [[|item more]|] eqn:Ec; simpl; try discriminate.
  destruct (w_fault w (S (w_tick w))); simpl; [discriminate|].
  destruct (select_schedule tomorrow (w_db w)) as [|row rest]; simpl.
  { intros H. injection H as <-. split; [discriminate|eauto]. }
  destruct (last_reminder_sent_at row) as [[T|T]|]; simpl;
    try discriminate.
  - unfold sent_within. simpl.
    destruct (w_now w - T <? 30 * MINUTE_US); simpl; [discriminate|].
    intros H. injection H as <-. split; [discriminate|eauto].
  - intros H. injection H as <-. split; [discriminate|eauto].
Qed.

(** The throttle on a marker written without UTC offset at [T]: with
    outstanding slots and the store answering, the check is held back before
    [T] + 30 minutes and fires from then on. *)
Lemma tomorrow_reminder_naive_marker w tomorrow items row rest T :
  reliable w ->
  date_plus_days (w_today w) 1 = Some tomorrow ->
  collect_incomplete (select_uploads tomorrow (w_db w)) = Some items ->
  items <> [] ->
  select_schedule tomorrow (w_db w) = row :: rest ->
  last_reminder_sent_at row = Some (Naive T) ->
  (w_now w < T + 30 * MINUTE_US ->
   (should_send_tomorrow_reminder w).1 = Ok (false, items)) /\
  (T + 30 * MINUTE_US <= w_now w ->
   (should_send_tomorrow_reminder w).1 = Ok (true, items)).
Proof.
  intros Hr Hd Hc Hne Es El.
  unfold should_send_tomorrow_reminder, get_incomplete_items_for_date.
  unfold_monad. rewrite Hd. simpl. rewrite Hr, Hc. simpl.
  destruct items as [|item more]; [congruence|]. simpl.
  rewrite Hr, Es, El. simpl. unfold sent_within. simpl.
  split; intros H.
  - assert (Ew : (w_now w - T <? 30 * MINUTE_US) = true)
      by (apply Z.ltb_lt; lia).
    rewrite Ew. reflexivity.
  - assert (Ew : (w_now w - T <? 30 * MINUTE_US) = false)
      by (apply Z.ltb_ge; lia).
    rewrite Ew. reflexivity.
Qed.

(** A marker carrying a UTC offset holds the check back at every time. *)
Lemma tomorrow_reminder_aware_marker w tomorrow items row rest T :
  reliable w ->
  date_plus_days (w_today w) 1 = Some tomorrow ->
  collect_incomplete (select_uploads tomorrow (w_db w)) = Some items ->
  items <> [] ->
  select_schedule tomorrow (w_db w) = row :: rest ->
  last_reminder_sent_at row = Some (Aware T) ->
  (should_send_tomorrow_reminder w).1 = Ok (false, []).
Proof.
  intros Hr Hd Hc Hne Es El.
  unfold should_send_tomorrow_reminder, get_incomplete_items_for_date.
  unfold_monad. rewrite Hd. simpl. rewrite Hr, Hc. simpl.
  destruct items as [|item more]; [congruence|]. simpl.
  rewrite Hr, Es, El. reflexivity.
Qed.

(** Without a marker the check fires at once. *)
Lemma tomorrow_reminder_first_evaluation w tomorrow items :
  reliable w ->
  date_plus_days (w_today w) 1 = Some tomorrow ->
  collect_incomplete (select_uploads tomorrow (w_db w)) = Some items ->
  items <> [] ->
  (forall row, In row (select_schedule tomorrow (w_db w)) ->
     last_reminder_sent_at row = None) ->
  (should_send_tomorrow_reminder w).1 = Ok (true, items).
Proof.
  intros Hr Hd Hc Hne Hm.
  unfold should_send_tomorrow_reminder, get_incomplete_items_for_date.
  unfold_monad. rewrite Hd. simpl. rewrite Hr, Hc. simpl.
  destruct items as [|item more]; [congruence|]. simpl.
  rewrite Hr.
  destruct (select_schedule tomorrow (w_db w)) as [|row rest]; simpl;
    [reflexivity|].
  rewrite (Hm row) by now left. reflexivity.
Qed.
(** C1 (amended). The "today ready" check answers should-send=true only if
    the [all_complete] flag stored on today's schedule row is set and the
    row's last-sent marker is absent, of a type other than 'ready', or a
    'ready' marker at least three hours old; with the flag set and no marker
    the first evaluation answers true (the store answering); a 'ready' marker
    written at [T] without UTC offset makes every evaluation before [T] + 3h
    answer false, and so does [log_reminder] called with the type 'ready'
    at [T]. *)
Theorem today_reminder_needs_flag_and_open_marker :
  (forall w st,
     (should_send_today_reminder skeleton w).1 = Ok (true, st) ->
     exists status row,
       st = Some status /\ ds_all_complete status = true /\
       head (select_schedule (w_today w)
               (w_db (should_send_today_reminder skeleton w).2)) = Some row /\
       all_complete row = true /\
       ready_marker_allows (w_now w) row) /\
  (forall w row rest st,
     reliable w ->
     select_schedule (w_today w) (w_db w) = row :: rest ->
     all_complete row = true ->
     last_reminder_sent_at row = None ->
     day_status_of (w_today w) (Some row)
                   (select_uploads (w_today w) (w_db w)) = Some st ->
     (should_send_today_reminder skeleton w).1 = Ok (true, Some st)) /\
  (forall w row rest T,
     select_schedule (w_today w) (w_db w) = row :: rest ->
     last_reminder_sent_at row = Some (Naive T) ->
     is_ready_type (reminder_type row) = true ->
     w_now w < T + 3 * HOUR_US ->
     exists st, (should_send_today_reminder skeleton w).1 = Ok (false, st)) /\
  (forall w msg cnt chans t,
     reliable w ->
     select_schedule (w_today w) (w_db w) <> [] ->
     t < w_now w + 3 * HOUR_US ->
     exists st,
       (should_send_today_reminder skeleton
          (set_now t (log_reminder "ready" (w_today w) msg cnt chans w).2)).1
       = Ok (false, st)).
Proof.
  split; [exact today_reminder_only_if|].
  split; [exact today_reminder_first_evaluation|].
  split; [exact today_reminder_throttled|].
  exact today_reminder_after_ready_log.
Qed.

End Reminders.

(** C1 as stated fails: all four slots of the only active channel are
    completed for today (the day status is READY) and today's row has no
    marker, yet the check answers false, because the [all_complete] flag
    stored on the schedule row is not set. *)
Lemma all_slots_completed_but_flag_unset :
  map video_status (daily_uploads (store_all_completed false None None)) =
    ["completed"; "completed"; "completed"; "completed"] /\
  map last_reminder_sent_at
      (upload_schedules (store_all_completed false None None)) = [None] /\
  (exists st,
     (get_day_status no_skeleton date_2025_01_21
        (world_of (store_all_completed false None None) 0 date_2025_01_21)).1
     = Ok (Some st) /\
     status_text st = "READY" /\ total_videos st = 4) /\
  (should_send_today_reminder no_skeleton
     (world_of (store_all_completed false None None) 0 date_2025_01_21)).1
  = Ok (false, None).
Proof.
  split; [reflexivity|]. split; [reflexivity|]. split; [|reflexivity].
  eexists. split; [reflexivity|]. split; reflexivity.
Qed.

(** With the flag set and no marker, the first evaluation fires. *)
Lemma today_reminder_fires_on_flag :
  exists st,
    (should_send_today_reminder no_skeleton
       (world_of (store_all_completed true None None) 0 date_2025_01_21)).1
    = Ok (true, Some st).
Proof.
  eexists.
  eapply (proj1 (proj2 (today_reminder_needs_flag_and_open_marker
                          no_skeleton))).
  - intros n. reflexivity.
  - reflexivity.
  - reflexivity.
  - reflexivity.
  - reflexivity.
Defined.

(** [job_today_ready] logs its send as [log_reminder('today_ready', ...)],
    while the check throttles on the type 'ready' only: one minute after
    such a send the check fires again. *)
Lemma today_ready_log_does_not_throttle :
  exists st,
    (should_send_today_reminder no_skeleton
       (set_now MINUTE_US
          (log_reminder "today_ready" date_2025_01_21 "ready" 0 []
             (world_of (store_all_completed true None None) 0
                       date_2025_01_21)).2)).1
    = Ok (true, Some st).
Proof. eexists. reflexivity. Qed.

(** C7. The "tomorrow incomplete" check at a marker carrying a UTC offset:
    31 minutes after the marker, with slot 2 of tomorrow still waiting for
    its script, the subtraction of the offset-aware marker from the naive
    [utcnow()] raises and the check answers (False, []); the same marker
    without offset fires after 30 minutes and is held back before. *)
Theorem aware_marker_blocks_tomorrow_reminder :
  (should_send_tomorrow_reminder
     (world_of (store_tomorrow_incomplete (Some (Aware 0)))
               (31 * MINUTE_US) date_2025_01_20)).1 = Ok (false, []) /\
  (exists item,
     (should_send_tomorrow_reminder
        (world_of (store_tomorrow_incomplete (Some (Naive 0)))
                  (31 * MINUTE_US) date_2025_01_20)).1 = Ok (true, [item]) /\
     ii_missing item = ["script"; "video"]) /\
  (exists item,
     (should_send_tomorrow_reminder
        (world_of (store_tomorrow_incomplete (Some (Naive 0)))
                  (29 * MINUTE_US) date_2025_01_20)).1 = Ok (false, [item])).
Proof.
  split; [reflexivity|]. split; eexists; [split|]; reflexivity.
Qed.

(** ** The selection wizard ([InlineSelectionHandler]) *)

Section Wizard.

Create HintDb remote.

Lemma same_session_refl w : same_session w w.
Proof. repeat split. Qed.

Lemma same_session_trans w1 w2 w3 :
  same_session w1 w2 -> same_session w2 w3 -> same_session w1 w3.
Proof.
  unfold same_session. intros (A1&A2&A3&A4&A5&A6&A7) (B1&B2&B3&B4&B5&B6&B7).
  repeat split; congruence.
Qed.

Lemma remote_only_ret {A} (a : A) : remote_only (mret a).
Proof. intros w. apply same_session_refl. Qed.

Lemma remote_only_raise {A} : remote_only (@raise A).
Proof. intros w. apply same_session_refl. Qed.

Lemma remote_only_utcnow : remote_only utcnow.
Proof. intros w. apply same_session_refl. Qed.

Lemma remote_only_bind {A B} (c : M A) (k : A -> M B) :
  remote_only c -> (forall a, remote_only (k a)) -> remote_only (c ≫= k).
Proof.
  intros Hc Hk w. unfold mbind, M_bind, bind.
  specialize (Hc w). destruct (c w) as [[a|] w1]; simpl in *; [|exact Hc].
  eapply same_session_trans; [exact Hc|apply Hk].
Qed.

Lemma remote_only_try_except {A} (c h : M A) :
  remote_only c -> remote_only h -> remote_only (try_except c h).
Proof.
  intros Hc Hh w. unfold try_except.
  specialize (Hc w). destruct (c w) as [[a|] w1]; simpl in *; [exact Hc|].
  eapply same_session_trans; [exact Hc|apply Hh].
Qed.

Lemma remote_only_execute {A} r (f : store -> outcome A * store) :
  remote_only (execute r f).
Proof.
  intros w. unfold execute.
  destruct (w_fault w (w_tick w)); [repeat split|].
  destruct (f (w_db w)) as [o db']. repeat split.
Qed.

Lemma remote_only_first_or_raise {A} (rows : list A) :
  remote_only (first_or_raise rows).
Proof. destruct rows; intros w; apply same_session_refl. Qed.

Hint Resolve remote_only_ret remote_only_raise remote_only_utcnow
  remote_only_execute remote_only_first_or_raise : remote.

Hint Extern 2 (remote_only (_ ≫= _)) =>
  apply remote_only_bind; [|intros ?] : remote.

Hint Extern 2 (remote_only (try_except _ _)) =>
  apply remote_only_try_except : remote.

Hint Extern 3 (remote_only (match ?x with _ => _ end)) =>
  destruct x : remote.

Lemma remote_only_get_channel name : remote_only (get_channel name).
Proof. unfold get_channel. auto 10 with remote. Qed.

Lemma remote_only_list_channels b : remote_only (list_channels b).
Proof. unfold list_channels. auto 10 with remote. Qed.

Lemma remote_only_create_upload_entry cid d n :
  remote_only (create_upload_entry cid d n).
Proof. unfold create_upload_entry. auto 10 with remote. Qed.

Lemma remote_only_update_script cid d n t :
  remote_only (update_script cid d n t).
Proof. unfold update_script. auto 10 with remote. Qed.

Lemma remote_only_update_thumbnail cid d n g u :
  remote_only (update_thumbnail cid d n g u).
Proof. unfold update_thumbnail. auto 10 with remote. Qed.

Hint Resolve remote_only_get_channel remote_only_list_channels
  remote_only_create_upload_entry remote_only_update_script
  remote_only_update_thumbnail : remote.

Lemma remote_only_get_channel_buttons : remote_only get_channel_buttons.
Proof. unfold get_channel_buttons. auto 10 with remote. Qed.

Lemma never_raises_try_ret {A} (c : M A) (a : A) :
  never_raises (try_except c (mret a)).
Proof.
  intros w. unfold try_except. destruct (c w) as [[x|] w1]; simpl; eauto.
Qed.

Lemma get_channel_buttons_ok w :
  exists w', get_channel_buttons w = (Ok tt, w') /\ same_session w w'.
Proof.
  pose proof (remote_only_get_channel_buttons w) as Hs.
  unfold get_channel_buttons in *. unfold mbind, M_bind, bind in *.
  destruct (never_raises_try_ret
              (execute (SelectChannels true)
                 (fun db => (Ok (if true then List.filter ch_is_active (channels db) else channels db), db)))
              [] w) as [a Ha].
  fold (list_channels true) in Ha.
  destruct (list_channels true w) as [[l|] w1]; simpl in *; [|discriminate].
  eexists. split; [reflexivity|exact Hs].
Qed.

Lemma process_selection_effect st w :
  exists b rs w',
    _process_selection st w = (Ok b, w') /\
    w_requests w' = (w_requests w ++ rs)%list /\ commit_requests st rs /\
    w_commits w' = (w_commits w ++ [st])%list /\
    w_selections w' = w_selections w /\
    w_replies w' = w_replies w /\
    w_fault w' = w_fault w /\
    (b = true -> selected_date st <> None).
Proof.
  unfold _process_selection, get_channel, create_upload_entry, update_script,
    update_thumbnail, record_commit, upsert_upload, update_upload,
    commit_requests.
  unfold_monad. simpl.
  repeat case_match; simplify_eq/=;
    eexists _, _, _; (split; [reflexivity|]); simpl;
    rewrite <- ?app_assoc; simpl;
    (split; [reflexivity|]).
  all: (split; [|repeat split; congruence]).
  all: first
    [ by left
    | right; eexists _, _; (split; [reflexivity|]);
      first [ by left
            | right; left; eexists; split; reflexivity
            | right; right; eexists _, _; split; reflexivity ] ].
Qed.

Lemma get_channel_buttons_effect w :
  exists w',
    get_channel_buttons w = (Ok tt, w') /\
    w_requests w' = (w_requests w ++ [SelectChannels true])%list /\
    w_db w' = w_db w /\ w_commits w' = w_commits w /\
    w_selections w' = w_selections w /\ w_replies w' = w_replies w /\
    w_fault w' = w_fault w.
Proof.
  unfold get_channel_buttons, list_channels. unfold_monad.
  destruct (w_fault w (w_tick w)); simpl; eexists; repeat split.
Qed.

Lemma handle_callback_expired uid data w :
  w_selections w !! uid = None ->
  exists w',
    handle_callback uid data w = (Ok false, w') /\
    w_selections w' = w_selections w /\ w_commits w' = w_commits w /\
    w_requests w' = w_requests w /\ w_db w' = w_db w /\
    w_fault w' = w_fault w.
Proof.
  intros H. unfold handle_callback, lookup_selection, edit_message_text.
  unfold_monad. rewrite H. simpl. eexists. repeat split.
Qed.

Lemma handle_callback_navigation uid data state w :
  w_selections w !! uid = Some state ->
  is_navigation data = true ->
  exists w',
    handle_callback uid data w = (Ok true, w') /\
    w_selections w' = <[uid := after_callback data state]> (w_selections w) /\
    w_commits w' = w_commits w /\ w_db w' = w_db w /\
    (w_requests w' = w_requests w \/
     w_requests w' = (w_requests w ++ [SelectChannels true])%list) /\
    w_fault w' = w_fault w.
Proof.
  intros H Hn. unfold handle_callback, lookup_selection.
  cbv beta iota delta [try_except mbind M_bind bind mret M_ret ret].
  rewrite H.
  destruct data; try discriminate Hn; simpl;
    unfold store_selection, edit_message_text, set_selections; simpl.
  - eexists. repeat split. now left.
  - match goal with |- context [get_channel_buttons ?x] =>
      destruct (get_channel_buttons_effect x) as (w1 & E & A & B & C & D & F & G)
    end.
    rewrite E. simpl in *. eexists. split; [reflexivity|]. simpl.
    repeat split; auto.
  - match goal with |- context [get_channel_buttons ?x] =>
      destruct (get_channel_buttons_effect x) as (w1 & E & A & B & C & D & F & G)
    end.
    rewrite E. simpl in *. eexists. split; [reflexivity|]. simpl.
    repeat split; auto.
  - eexists. repeat split. now left.
Qed.

Lemma handle_callback_cancel uid state w :
  w_selections w !! uid = Some state ->
  exists w',
    handle_callback uid Cancel w = (Ok true, w') /\
    w_selections w' = delete uid (w_selections w) /\
    w_commits w' = w_commits w /\ w_db w' = w_db w /\
    w_requests w' = w_requests w /\ w_fault w' = w_fault w.
Proof.
  intros H. unfold handle_callback, lookup_selection.
  cbv beta iota delta [try_except mbind M_bind bind mret M_ret ret].
  rewrite H. simpl. eexists. repeat split.
Qed.

Lemma handle_callback_video uid n state w :
  w_selections w !! uid = Some state ->
  exists w' rs,
    handle_callback uid (VideoPick n) w = (Ok true, w') /\
    w_selections w' = delete uid (w_selections w) /\
    w_commits w' =
      (w_commits w ++ [after_callback (VideoPick n) state])%list /\
    w_requests w' = (w_requests w ++ rs)%list /\
    commit_requests (after_callback (VideoPick n) state) rs /\
    w_fault w' = w_fault w.
Proof.
  intros H. unfold handle_callback, lookup_selection.
  cbv beta iota delta [try_except mbind M_bind bind mret M_ret ret].
  rewrite H.
  unfold store_selection, delete_selection, edit_message_text, raise. simpl.
  match goal with |- context [_process_selection ?s ?x] =>
    destruct (process_selection_effect s x)
      as (b & rs & w1 & E & A & B & C & D & F & G & Hd)
  end.
  rewrite E. simpl in *.
  destruct b.
  - destruct (selected_date state) as [d|] eqn:Ed;
      [|exfalso; now apply Hd].
    simpl. eexists _, rs. split; [reflexivity|]. simpl.
    rewrite D. unfold set_selections. simpl.
    rewrite delete_insert_eq. repeat split; auto.
  - simpl. eexists _, rs. split; [reflexivity|]. simpl.
    rewrite D. unfold set_selections. simpl.
    rewrite delete_insert_eq. repeat split; auto.
Qed.


Lemma writes_app w w' rs :
  w_requests w' = (w_requests w ++ rs)%list ->
  writes w' = (writes w ++ List.filter is_write rs)%list.
Proof. unfold writes. intros ->. apply List.filter_app. Qed.

Lemma run_navigation uid inputs : forall w state,
  w_selections w !! uid = Some state ->
  Forall (fun x => is_navigation x = true) inputs ->
  let w' := run_callbacks uid inputs w in
  w_selections w' !! uid =
    Some (fold_left (fun s x => after_callback x s) inputs state) /\
  w_commits w' = w_commits w /\ w_db w' = w_db w /\
  writes w' = writes w /\ w_fault w' = w_fault w.
Proof.
  induction inputs as [|x inputs IH]; intros w state Hs Hn; cbv zeta.
  - simpl. repeat split. exact Hs.
  - inversion Hn as [|? ? Hx Hrest]; subst.
    destruct (handle_callback_navigation uid x state w Hs Hx)
      as (w1 & E & A & B & C & D & F).
    simpl. rewrite E. simpl.
    assert (Hs1 : w_selections w1 !! uid = Some (after_callback x state))
      by (rewrite A; apply lookup_insert_eq).
    destruct (IH w1 _ Hs1 Hrest) as (I1 & I2 & I3 & I4 & I5).
    repeat split; try congruence.
    rewrite I4. destruct D as [D|D].
    + unfold writes. now rewrite D.
    + rewrite (writes_app _ _ _ D). simpl. apply app_nil_r.
Qed.


Lemma run_callbacks_app uid xs ys w :
  run_callbacks uid (xs ++ ys) w =
  run_callbacks uid ys (run_callbacks uid xs w).
Proof.
  revert w. induction xs as [|x xs IH]; intros w; simpl; [reflexivity|].
  apply IH.
Qed.


Lemma start_selection_effect uid c mid w :
  exists w0,
    start_selection uid c mid w = (Ok true, w0) /\
    w_selections w0 !! uid =
      Some (Selection c "date" None None None (Some mid)) /\
    w_commits w0 = w_commits w /\ w_db w0 = w_db w /\
    w_requests w0 = w_requests w /\ w_fault w0 = w_fault w.
Proof.
  unfold start_selection, store_selection, reply_text, edit_message_text.
  unfold_monad. simpl. eexists. split; [reflexivity|]. simpl.
  split; [apply lookup_insert_eq|]. repeat split.
Qed.


End Wizard.

(** ** Bulk assignment ([_process_bulk]) *)

Section Bulk.



End Bulk.

(** ** Back transitions and the scenarios *)

Section Back.

Lemma handle_callback_back uid data state w :
  w_selections w !! uid = Some state ->
  is_navigation data = true ->
  exists w',
    handle_callback uid data w = (Ok true, w') /\
    w_selections w' !! uid = Some (after_callback data state) /\
    w_commits w' = w_commits w /\ w_db w' = w_db w.
Proof.
  intros Hs Hn.
  destruct (handle_callback_navigation uid data state w Hs Hn)
    as (w1 & E & A & B & C & _).
  exists w1. split; [exact E|]. split; [|auto].
  rewrite A. apply lookup_insert_eq.
Qed.

(** C8. A 'back' transition returns to the step before and clears only the
    selection captured after it: back_to_date sets the step to 'date' and
    clears the chosen channel, back_to_channel sets the step to 'channel'
    and clears the chosen video slot; the content payload, the date and
    every other field stay, nothing is committed and the store is not
    written.  From the step whose keyboard shows it, the back button moves
    exactly one step backward.  The callbacks date:2025-01-21, channel:BI,
    back_to_channel, channel:GYH, video:3 end in one commit, of the state
    (2025-01-21, GYH, slot 3), whose requests name GYH and no other
    channel. *)
Theorem back_clears_only_the_later_selection :
  (forall w uid state,
     w_selections w !! uid = Some state ->
     exists w',
       handle_callback uid BackToDate w = (Ok true, w') /\
       w_selections w' !! uid =
         Some (Selection (sel_content state) "date" (selected_date state)
                         None (selected_video state) (message_id state)) /\
       w_commits w' = w_commits w /\ w_db w' = w_db w) /\
  (forall w uid state,
     w_selections w !! uid = Some state ->
     exists w',
       handle_callback uid BackToChannel w = (Ok true, w') /\
       w_selections w' !! uid =
         Some (Selection (sel_content state) "channel" (selected_date state)
                         (selected_channel state) None (message_id state)) /\
       w_commits w' = w_commits w /\ w_db w' = w_db w) /\
  (forall state back,
     back_button (step state) = Some back ->
     Some (step (after_callback back state)) = previous_step (step state)) /\
  (forall w uid c mid wf,
     wf = run_callbacks uid scenario_3 (start_selection uid c mid w).2 ->
     w_selections wf !! uid = None /\
     exists rs,
       w_commits wf =
         (w_commits w ++
          [Selection c "video" (Some date_2025_01_21) (Some "GYH") (Some 3)
                     (Some mid)])%list /\
       writes wf = (writes w ++ List.filter is_write rs)%list /\
       commit_requests
         (Selection c "video" (Some date_2025_01_21) (Some "GYH") (Some 3)
                    (Some mid)) rs).
Proof.
  split; [|split; [|split]].
  - intros w uid state Hs.
    exact (handle_callback_back uid BackToDate state w Hs eq_refl).
  - intros w uid state Hs.
    exact (handle_callback_back uid BackToChannel state w Hs eq_refl).
  - intros state back. unfold back_button, previous_step.
    destruct (String.eqb (step state) "channel");
      [intros H; injection H as <-; reflexivity|].
    destruct (String.eqb (step state) "video");
      [intros H; injection H as <-; reflexivity|discriminate].
  - intros w uid c mid wf ->.
    destruct (start_selection_effect uid c mid w)
      as (w0 & E & Hs & Hc & Hd & Hr & Hf).
    rewrite E. cbn [fst snd].
    change scenario_3 with
      ([DatePick date_2025_01_21; ChannelPick "BI"; BackToChannel;
        ChannelPick "GYH"] ++ [VideoPick 3])%list.
    rewrite run_callbacks_app.
    destruct (run_navigation uid
                [DatePick date_2025_01_21; ChannelPick "BI"; BackToChannel;
                 ChannelPick "GYH"] w0 _ Hs)
      as (A & B & C & D & F); [repeat constructor|].
    revert A B C D F.
    generalize (run_callbacks uid
                  [DatePick date_2025_01_21; ChannelPick "BI"; BackToChannel;
                   ChannelPick "GYH"] w0).
    intros w1 A B C D F.
    destruct (handle_callback_video uid 3 _ _ A)
      as (w2 & rs & E2 & A2 & B2 & C2 & D2 & F2).
    cbn [run_callbacks]. rewrite E2. cbn [fst snd].
    cbn [after_callback sel_content selected_date selected_channel
         selected_video message_id step] in B2, D2.
    split; [rewrite A2; apply lookup_delete_eq|].
    exists rs. split; [rewrite B2, B, Hc; reflexivity|]. split; [|exact D2].
    rewrite (writes_app _ _ _ C2), D. unfold writes. now rewrite Hr.
Qed.

End Back.

(** * The scenarios, evaluated *)

(** Scenario 3 on a store with the channels BI (id 1) and GYH (id 2): the
    slot created and filled is (GYH, 2025-01-21, 3). *)
Lemma scenario_3_commit_targets_GYH :
  w_commits (wizard_run fresh_world scenario_3) =
    [Selection (Script "hello") "video" (Some date_2025_01_21) (Some "GYH")
               (Some 3) (Some 1)] /\
  writes (wizard_run fresh_world scenario_3) =
    [UpsertUpload 2 (Some date_2025_01_21) 3;
     UpdateScript 2 (Some date_2025_01_21) 3 "hello"] /\
  map (fun u => (channel_id u, upload_date u, video_number u,
                 script_status u))
      (daily_uploads (w_db (wizard_run fresh_world scenario_3))) =
    [(2, date_2025_01_21, 3, "received")] /\
  w_selections (wizard_run fresh_world scenario_3) !! 7 = None.
Proof.
  destruct (proj2 (proj2 (proj2 back_clears_only_the_later_selection))
              fresh_world 7 (Script "hello") 1
              (wizard_run fresh_world scenario_3) eq_refl)
    as (Hn & rs & Hc & _).
  split; [exact Hc|]. split; [|split]; reflexivity.
Defined.





(** * Further properties of the modelled operations *)

Section MoreWizard.

(** A callback that finds no selection state of its user is a terminal
    error: the handler answers False with the 'expired' text, creates no
    state, calls nothing and leaves every other user's state alone. *)
Theorem expired_state_is_terminal uid data w :
  w_selections w !! uid = None ->
  (handle_callback uid data w).1 = Ok false /\
  w_selections (handle_callback uid data w).2 = w_selections w /\
  w_replies (handle_callback uid data w).2 =
    (w_replies w ++ [SelectionExpired])%list /\
  w_commits (handle_callback uid data w).2 = w_commits w /\
  w_requests (handle_callback uid data w).2 = w_requests w /\
  w_db (handle_callback uid data w).2 = w_db w.
Proof.
  intros H. unfold handle_callback, lookup_selection, edit_message_text.
  cbv beta iota delta [try_except mbind M_bind bind mret M_ret ret].
  rewrite H. repeat split.
Qed.

(** The handler of one user's callback never touches the selection state
    of another user, whatever the callback and whatever the store does. *)
Theorem callbacks_leave_other_users_alone uid other data w :
  other <> uid ->
  w_selections (handle_callback uid data w).2 !! other =
  w_selections w !! other.
Proof.
  intros Hne.
  destruct (w_selections w !! uid) as [state|] eqn:Hs.
  - destruct (is_navigation data) eqn:Nav.
    + destruct (handle_callback_navigation uid data state w Hs Nav)
        as (w1 & E & A & _).
      rewrite E. cbn [snd]. rewrite A.
      apply lookup_insert_ne. congruence.
    + destruct data; try discriminate Nav.
      * destruct (handle_callback_cancel uid state w Hs) as (w1 & E & A & _).
        rewrite E. cbn [snd]. rewrite A. apply lookup_delete_ne. congruence.
      * destruct (handle_callback_video uid n state w Hs)
          as (w1 & rs & E & A & _).
        rewrite E. cbn [snd]. rewrite A. apply lookup_delete_ne. congruence.
      * unfold handle_callback, lookup_selection.
        cbv beta iota delta [try_except mbind M_bind bind mret M_ret ret].
        rewrite Hs. reflexivity.
  - destruct (handle_callback_expired uid data w Hs) as (w1 & E & A & _).
    rewrite E. cbn [snd]. now rewrite A.
Qed.

End MoreWizard.

(** User 9 presses a button after the wizard of user 7 only was started. *)
Lemma expired_for_a_user_without_state :
  (handle_callback 9 (VideoPick 1)
     (start_selection 7 (Script "hello") 1 fresh_world).2).1 = Ok false /\
  w_commits (handle_callback 9 (VideoPick 1)
               (start_selection 7 (Script "hello") 1 fresh_world).2).2 = [].
Proof.
  destruct (expired_state_is_terminal 9 (VideoPick 1)
              (start_selection 7 (Script "hello") 1 fresh_world).2 eq_refl)
    as (A & _ & _ & B & _).
  split; [exact A|exact B].
Defined.

(** User 7 keeps the state while user 9 cancels. *)
Lemma cancel_of_another_user_keeps_the_state :
  w_selections
    (handle_callback 9 Cancel
       (start_selection 9 (Script "other") 2
          (start_selection 7 (Script "hello") 1 fresh_world).2).2).2 !! 7 =
  Some (Selection (Script "hello") "date" None None None (Some 1)).
Proof.
  rewrite (callbacks_leave_other_users_alone 9 7 Cancel); [reflexivity|].
  discriminate.
Defined.
Section MoreStore.

(** An update of a key no row holds raises ("Upload entry not found") and
    changes nothing in the store; an update that finds the key leaves every
    row of another key exactly as it was. *)
Theorem update_script_needs_the_slot w cid d n text :
  w_fault w (w_tick w) = false ->
  (rows_with_key cid d n (w_db w) = [] ->
   (update_script cid (Some d) n text w).1 = Raise /\
   w_db (update_script cid (Some d) n text w).2 = w_db w) /\
  (rows_with_key cid d n (w_db w) <> [] ->
   (exists r, In r (rows_with_key cid d n (w_db w)) /\
      (update_script cid (Some d) n text w).1 =
        Ok (apply_patch (script_patch text (w_now w)) r)) /\
   rows_with_key cid d n (w_db (update_script cid (Some d) n text w).2) =
     map (apply_patch (script_patch text (w_now w)))
         (rows_with_key cid d n (w_db w)) /\
   List.filter (fun r => negb (same_key cid (Some d) n r))
     (daily_uploads (w_db (update_script cid (Some d) n text w).2)) =
   List.filter (fun r => negb (same_key cid (Some d) n r))
     (daily_uploads (w_db w))).
Proof.
  intros Hf. unfold update_script, rows_with_key.
  cbv beta iota delta
    [first_or_raise raise utcnow execute mbind M_bind bind mret M_ret ret].
  rewrite Hf. unfold update_upload.
  pose proof (update_where_rows (same_key cid (Some d) n)
                (apply_patch (script_patch text (w_now w)))
                (daily_uploads (w_db w))
                (same_key_apply_patch cid (Some d) n _)) as (Hl & Hk & Ho).
  unfold update_where in *. cbn [fst snd] in *.
  split.
  - intros He. rewrite He. cbn [map]. split; [reflexivity|].
    cbn [snd set_db issue w_db].
    assert (Hid : map (fun r => if same_key cid (Some d) n r
                                then apply_patch
                                       (script_patch text (w_now w)) r
                                else r) (daily_uploads (w_db w))
                  = daily_uploads (w_db w)).
    { clear Hl Hk Ho. induction (daily_uploads (w_db w)) as [|r l IH];
        [reflexivity|].
      cbn [List.filter] in He. destruct (same_key cid (Some d) n r) eqn:Ek;
        [discriminate|].
      cbn [map]. rewrite Ek, (IH He). reflexivity. }
    rewrite Hid. destruct (w_db w); reflexivity.
  - intros Hne.
    destruct (List.filter (same_key cid (Some d) n) (daily_uploads (w_db w)))
      as [|r l] eqn:E; [congruence|].
    cbn [map fst snd set_db issue w_db with_daily_uploads daily_uploads].
    split; [exists r; split; [now left|reflexivity]|].
    split; [exact Hk|exact Ho].
Qed.

Lemma mark_other_dates d d' now rtype (l : list upload_schedule) :
  d' <> d ->
  List.filter (fun s => sch_upload_date s =? d')
    (map (fun s => if sch_upload_date s =? d
                   then mark_reminder now rtype s else s) l) =
  List.filter (fun s => sch_upload_date s =? d') l.
Proof.
  intros Hne. induction l as [|s l IH]; [reflexivity|].
  cbn [map List.filter].
  destruct (sch_upload_date s =? d) eqn:E1.
  - apply Z.eqb_eq in E1. cbn [mark_reminder sch_upload_date].
    assert (E2 : (sch_upload_date s =? d') = false)
      by (apply Z.eqb_neq; congruence).
    rewrite E2. exact IH.
  - destruct (sch_upload_date s =? d'); [f_equal|]; exact IH.
Qed.

(** [log_reminder] is two requests and no transaction: when the update of
    the marker fails, the log entry stays written, the markers are as they
    were and the answer is False; when both are answered, exactly the rows
    of the date carry the new marker and the rows of other dates are
    untouched. *)
Theorem log_reminder_is_not_atomic w rtype d msg cnt chans :
  w_fault w (w_tick w) = false ->
  (w_fault w (S (w_tick w)) = true ->
   (log_reminder rtype d msg cnt chans w).1 = Ok false /\
   reminder_logs (w_db (log_reminder rtype d msg cnt chans w).2) =
     (reminder_logs (w_db w) ++ [ReminderLog rtype d msg cnt chans])%list /\
   upload_schedules (w_db (log_reminder rtype d msg cnt chans w).2) =
     upload_schedules (w_db w)) /\
  (w_fault w (S (w_tick w)) = false ->
   (log_reminder rtype d msg cnt chans w).1 = Ok true /\
   reminder_logs (w_db (log_reminder rtype d msg cnt chans w).2) =
     (reminder_logs (w_db w) ++ [ReminderLog rtype d msg cnt chans])%list /\
   select_schedule d (w_db (log_reminder rtype d msg cnt chans w).2) =
     map (mark_reminder (w_now w) rtype) (select_schedule d (w_db w)) /\
   forall d', d' <> d ->
     select_schedule d' (w_db (log_reminder rtype d msg cnt chans w).2) =
     select_schedule d' (w_db w)).
Proof.
  intros Hf. unfold log_reminder.
  cbv beta iota delta
    [try_except raise utcnow execute mbind M_bind bind mret M_ret ret
     set_db issue].
  rewrite Hf. cbn [w_fault w_tick w_db].
  split; intros Hf'; rewrite Hf'.
  - repeat split.
  - cbn [fst snd w_db]. split; [reflexivity|]. split; [reflexivity|].
    unfold select_schedule, update_where.
    cbn [fst snd upload_schedules with_upload_schedules with_reminder_logs].
    split.
    + pose proof (update_where_rows (fun s => sch_upload_date s =? d)
                    (mark_reminder (w_now w) rtype)
                    (upload_schedules (w_db w)) (fun s => eq_refl))
        as (_ & Hk & _).
      exact Hk.
    + intros d' Hne. apply mark_other_dates. exact Hne.
Qed.




End MoreStore.

(** The marker update fails (second request) on 2025-01-21. *)
Definition world_failing_second : world :=
  World (store_all_completed true None None) 0 date_2025_01_21 0
        (fun n => Nat.eqb n 1) [] ∅ ∅ [] [].

Lemma update_script_without_slot_raises :
  (update_script 1 (Some date_2025_01_21) 2 "text" fresh_world).1 = Raise /\
  w_db (update_script 1 (Some date_2025_01_21) 2 "text" fresh_world).2 =
    w_db fresh_world.
Proof.
  exact (proj1 (update_script_needs_the_slot fresh_world 1 date_2025_01_21 2
                  "text" eq_refl) eq_refl).
Defined.

Lemma log_reminder_half_written :
  (log_reminder "ready" date_2025_01_21 "msg" 0 [] world_failing_second).1 =
    Ok false /\
  length (reminder_logs
            (w_db (log_reminder "ready" date_2025_01_21 "msg" 0 []
                     world_failing_second).2)) = 1%nat /\
  map last_reminder_sent_at
      (upload_schedules
         (w_db (log_reminder "ready" date_2025_01_21 "msg" 0 []
                  world_failing_second).2)) = [None].
Proof.
  destruct (proj1 (log_reminder_is_not_atomic world_failing_second "ready"
                     date_2025_01_21 "msg" 0 [] eq_refl) eq_refl)
    as (A & B & C).
  split; [exact A|]. split; [rewrite B|rewrite C]; reflexivity.
Defined.


Lemma create_twice_keeps_one_row :
  length (rows_with_key 1 date_2025_01_21 2
            (w_db (create_upload_entry 1 (Some date_2025_01_21) 2
                     (world_of store_with_thumbnail 5 date_2025_01_21)).2))
  = 1%nat.
Proof.
  rewrite (proj1 (create_upload_entry_adds_no_duplicate
                    (world_of store_with_thumbnail 5 date_2025_01_21)
                    1 date_2025_01_21 2 eq_refl)).
  reflexivity.
Defined.

Lemma tomorrow_reminder_fires_after_half_an_hour :
  exists items,
    (should_send_tomorrow_reminder
       (world_of (store_tomorrow_incomplete (Some (Naive 0)))
                 (30 * MINUTE_US) date_2025_01_20)).1 = Ok (true, items).
Proof.
  eexists.
  eapply (proj2 (tomorrow_reminder_naive_marker
                   (world_of (store_tomorrow_incomplete (Some (Naive 0)))
                             (30 * MINUTE_US) date_2025_01_20)
                   date_2025_01_21 _ _ _ 0 _ _ _ _ _ _)).
  Unshelve.
  all: try (intros n; reflexivity).
  all: try reflexivity.
  all: try discriminate.
Defined.

Lemma tomorrow_reminder_returns_outstanding_items :
  exists item,
    collect_incomplete
      (select_uploads date_2025_01_21
         (store_tomorrow_incomplete None)) = Some [item] /\
    ii_missing item = ["script"; "video"].
Proof.
  destruct (tomorrow_reminder_only_if
              (world_of (store_tomorrow_incomplete None) 0 date_2025_01_20)
              _ eq_refl) as (_ & tomorrow & Hd & Hc).
  injection Hd as <-. eexists. split; [exact Hc|reflexivity].
Defined.

(** * Further operations *)

(** A request of the operations below: it consumes a tick and fails with
    the oracle like [execute]; the request log, which serves the statements
    about the wizard's writes, is left alone. *)
Definition remote_call {A} (f : store -> outcome A * store) : M A :=
  fun w =>
    let w1 := World (w_db w) (w_now w) (w_today w) (S (w_tick w)) (w_fault w)
                    (w_requests w) (w_selections w) (w_bulk_selections w)
                    (w_commits w) (w_replies w) in
    if w_fault w (w_tick w) then (Raise, w1)
    else let '(o, db') := f (w_db w) in (o, set_db db' w1).

Definition with_channels (f : list channel -> list channel) (db : store)
  : store :=
  Store (f (channels db)) (daily_uploads db) (upload_schedules db)
        (gdrive_folders db) (reminder_logs db).

(** [ChannelManager.delete_channel]: a soft delete; an exception is logged
    and raised again. *)
Definition delete_channel (channel_name : string) : M bool :=
  rows ← remote_call
           (fun db =>
              let '(rows, hit) :=
                update_where
                  (fun c => String.eqb (ch_channel_name c) channel_name)
                  (fun c => Channel (ch_id c) (ch_channel_name c) false)
                  (channels db) in
              (Ok hit, with_channels (fun _ => rows) db));
  mret (match rows with [] => false | _ => true end).

(** [ChannelManager.get_channel_names]. *)
Definition get_channel_names (active_only : bool) : M (list string) :=
  channels ← list_channels active_only;
  mret (map ch_channel_name channels).

(** [ChannelManager.is_channel_active]: [channel and channel.get(...)],
    read for its truth value. *)
Definition is_channel_active (channel_name : string) : M bool :=
  channel ← get_channel (Some channel_name);
  mret (match channel with Some c => ch_is_active c | None => false end).

(** [DailyUploadManager.get_upload_entry]. *)
Definition get_upload_entry (cid : Z) (d : date) (n : Z)
  : M (option daily_upload) :=
  try_except
    (rows ← remote_call
              (fun db => (Ok (List.filter (same_key cid (Some d) n)
                                          (daily_uploads db)), db));
     mret (head rows))
    (mret None).

(** [ScheduleManager.mark_complete]. *)
Definition complete_patch (now : Z) : upload_patch :=
  {| p_script_status := Some "processed";
     p_thumbnail_status := Some "received";
     p_video_status := Some "completed";
     p_audio_status := Some "completed";
     p_script_text := None; p_script_received_at := None;
     p_thumbnail_gdrive_id := None; p_thumbnail_gdrive_url := None;
     p_video_gdrive_id := None; p_video_gdrive_url := None;
     p_error_message := None;
     p_processing_completed_at := Some (Some (Naive now));
     p_updated_at := Some (Some (Naive now)) |}.

Definition mark_complete (channel_name : string) (upload_date : date)
  (video_number : Z) : M bool :=
  try_except
    (ch_result ← remote_call
                   (fun db =>
                      (Ok (List.filter
                             (fun c => String.eqb (ch_channel_name c)
                                                  channel_name)
                             (channels db)), db));
     match ch_result with
     | [] => mret false
     | ch :: _ =>
         now ← utcnow;
         rows ← remote_call
                  (update_upload (ch_id ch) (Some upload_date) video_number
                                 (complete_patch now));
         mret (match rows with [] => false | _ => true end)
     end)
    (mret false).

Section MoreOperations.

Lemma complete_patch_clears now r :
  issues_of (apply_patch (complete_patch now) r) = [] /\
  video_status (apply_patch (complete_patch now) r) = "completed".
Proof. split; reflexivity. Qed.

Lemma updated_rows_exist {R} (p : R -> bool) (f : R -> R) (l : list R) :
  match map f (List.filter p l) with [] => false | _ => true end =
  existsb p l.
Proof.
  induction l as [|r l IH]; [reflexivity|].
  cbn [List.filter existsb]. destruct (p r); [reflexivity|exact IH].
Qed.

(** [mark_complete] on a known channel forces the slot of the key to
    completed: it answers whether a row of the key exists, afterwards no row
    of the key is incomplete, and the rows of other keys are untouched; on
    an unknown channel it answers False and writes nothing. *)
Theorem mark_complete_clears_the_slot w name d n :
  w_fault w (w_tick w) = false ->
  w_fault w (S (w_tick w)) = false ->
  (forall ch rest,
     List.filter (fun c => String.eqb (ch_channel_name c) name)
                 (channels (w_db w)) = ch :: rest ->
     (mark_complete name d n w).1 =
       Ok (existsb (same_key (ch_id ch) (Some d) n)
                   (daily_uploads (w_db w))) /\
     rows_with_key (ch_id ch) d n (w_db (mark_complete name d n w).2) =
       map (apply_patch (complete_patch (w_now w)))
           (rows_with_key (ch_id ch) d n (w_db w)) /\
     (forall r,
        In r (rows_with_key (ch_id ch) d n
                (w_db (mark_complete name d n w).2)) ->
        issues_of r = [] /\ video_status r = "completed") /\
     List.filter (fun r => negb (same_key (ch_id ch) (Some d) n r))
       (daily_uploads (w_db (mark_complete name d n w).2)) =
     List.filter (fun r => negb (same_key (ch_id ch) (Some d) n r))
       (daily_uploads (w_db w))) /\
  (List.filter (fun c => String.eqb (ch_channel_name c) name)
               (channels (w_db w)) = [] ->
   (mark_complete name d n w).1 = Ok false /\
   w_db (mark_complete name d n w).2 = w_db w).
Proof.
  intros Hf0 Hf1. unfold mark_complete, remote_call.
  cbv beta iota delta
    [try_except raise utcnow mbind M_bind bind mret M_ret ret].
  rewrite Hf0. split.
  - intros ch rest Hch. rewrite Hch.
    cbn [w_fault w_tick set_db w_db w_now]. rewrite Hf1.
    unfold update_upload, rows_with_key.
    pose proof (update_where_rows (same_key (ch_id ch) (Some d) n)
                  (apply_patch (complete_patch (w_now w)))
                  (daily_uploads (w_db w))
                  (same_key_apply_patch (ch_id ch) (Some d) n _))
      as (Hl & Hk & Ho).
    unfold update_where in *. cbn [fst snd] in Hl, Hk, Ho.
    cbn [fst snd set_db w_db with_daily_uploads daily_uploads].
    split; [|split; [exact Hk|split; [|exact Ho]]].
    + f_equal. apply updated_rows_exist.
    + intros r Hin. rewrite Hk in Hin. apply in_map_iff in Hin.
      destruct Hin as (r0 & <- & _). apply complete_patch_clears.
  - intros Hch. rewrite Hch. split; [reflexivity|].
    cbn [snd set_db w_db]. destruct (w_db w); reflexivity.
Qed.

End MoreOperations.
